(** * The news pipeline of [Pipeline.ipynb]: fetch, process, store, repeat.

    The notebook's first code cell is embedded as functions over an explicit
    world: process environment, wall clock, network, SQLite store, file
    system and the ordered trace of observable effects.  Python exceptions
    are an error type threaded through a small state-and-error monad. *)

From Stdlib Require Import String Ascii List Bool Arith Lia.
From stdpp Require Import base option list gmap strings pretty.

Import ListNotations.
Open Scope string_scope.

Set Warnings "-register-all".

(** ** Values decoded from JSON *)

(** A Python value as produced by [response.json()].  An object is kept as
    the list of its items in insertion order; its keys are distinct. *)
Inductive json : Type :=
| JNull
| JBool (b : bool)
| JNum (literal : string)
| JStr (s : string)
| JArr (items : list json)
| JObj (members : list (string * json)).

(** [d.get(k)] on a dict. *)
Fixpoint dict_get (k : string) (d : list (string * json)) : option json :=
  match d with
  | [] => None
  | (k', v) :: d' => if String.eqb k k' then Some v else dict_get k d'
  end.

(** [p in s] on two strings: [p] occurs in [s]. *)
Fixpoint is_substring (p s : string) : bool :=
  String.prefix p s ||
  match s with
  | EmptyString => false
  | String _ s' => is_substring p s'
  end.

(** ** Exceptions *)

(** The argument given to [SystemExit(...)]; [str(e)] of the exit renders
    it. *)
Inductive ExitCode : Type :=
| CodeStr (s : string)
| CodeRequestException (msg : string)
| CodeJson (j : json).

Inductive exn : Type :=
| SystemExit (code : ExitCode)
| RequestException (msg : string)
| JSONDecodeError (msg : string)
| KeyError (key : string)
| TypeError
| DatabaseError (msg : string)
| PandasError (msg : string).

(** [isinstance(e, Exception)]: everything here except [SystemExit], which
    derives from [BaseException] only. *)
Definition is_Exception (e : exn) : bool :=
  match e with
  | SystemExit _ => false
  | _ => true
  end.

Definition is_SystemExit (e : exn) : bool :=
  match e with
  | SystemExit _ => true
  | _ => false
  end.

Definition is_RequestException (e : exn) : bool :=
  match e with
  | RequestException _ => true
  | _ => false
  end.

(** [str(e)] for the exceptions that carry a plain message; the text of a
    [TypeError] is not kept. *)
Definition exn_message (e : exn) : string :=
  match e with
  | RequestException m | JSONDecodeError m | DatabaseError m | PandasError m => m
  | KeyError k => "'" ++ k ++ "'"
  | TypeError => EmptyString
  | SystemExit _ => EmptyString
  end.

Inductive Outcome (A : Type) : Type :=
| Return (a : A)
| Raise (e : exn).
Arguments Return {A} a.
Arguments Raise {A} e.

(** [v[k]] with a string subscript. *)
Definition py_getitem (v : json) (k : string) : Outcome json :=
  match v with
  | JObj d =>
      match dict_get k d with
      | Some x => Return x
      | None => Raise (KeyError k)
      end
  | _ => Raise TypeError
  end.

(** [k in v] with a string on the left. *)
Definition py_contains (k : string) (v : json) : Outcome bool :=
  match v with
  | JObj d => Return (bool_decide (is_Some (dict_get k d)))
  | JArr l =>
      Return (existsb (fun x => match x with
                                | JStr s => String.eqb s k
                                | _ => false
                                end) l)
  | JStr s => Return (is_substring k s)
  | _ => Raise TypeError
  end.

(** Truthiness of the value returned by [os.getenv]. *)
Definition py_truthy (v : option string) : bool :=
  match v with
  | None => false
  | Some s => negb (String.eqb s EmptyString)
  end.

(** [f"{v}"] of the value returned by [os.getenv]. *)
Definition py_format (v : option string) : string :=
  match v with
  | None => "None"
  | Some s => s
  end.

(** ** Tables *)

(** A cell of a data frame: [None] is pandas' missing-value marker, which
    SQLite stores as NULL and [to_csv] writes as an empty field. *)
Definition Cell : Type := option json.
Definition Row : Type := list Cell.

Record DataFrame : Type := mkDataFrame {
  df_columns : list string;
  df_rows : list Row
}.

(** ** Wall clock *)

Record DateTime : Type := mkDateTime {
  year : nat; month : nat; day : nat;
  hour : nat; minute : nat; second : nat
}.

Definition pad2 (n : nat) : string :=
  if Nat.ltb n 10 then "0" ++ pretty n else pretty n.

Definition pad4 (n : nat) : string :=
  if Nat.ltb n 10 then "000" ++ pretty n
  else if Nat.ltb n 100 then "00" ++ pretty n
  else if Nat.ltb n 1000 then "0" ++ pretty n
  else pretty n.

(** [strftime("%Y-%m-%d %H:%M:%S")] *)
Definition strftime_log (t : DateTime) : string :=
  pad4 (year t) ++ "-" ++ pad2 (month t) ++ "-" ++ pad2 (day t) ++ " " ++
  pad2 (hour t) ++ ":" ++ pad2 (minute t) ++ ":" ++ pad2 (second t).

(** [strftime('%Y_%m_%d')] *)
Definition strftime_date (t : DateTime) : string :=
  pad4 (year t) ++ "_" ++ pad2 (month t) ++ "_" ++ pad2 (day t).

(** ** The outside world *)

(** What [requests.get] meets on the wire. *)
Inductive Body : Type :=
| ValidJson (j : json)
| InvalidJson (decode_error : string).

Record Response : Type := mkResponse {
  status_code : nat;
  reason : string;
  body : Body
}.

Inductive HttpOutcome : Type :=
| ConnectionFailed (msg : string)
| Responded (r : Response).

(** The one fault, if any, that the store raises during the life of a
    connection.  The statements of [store] run in a straight line and any
    raise leaves that line, so at most one of them can raise per call.
    [AppendFails k] is [to_sql] raising after [k] rows went into the
    transaction, because the database refuses the next one or cannot bind
    one of its values; [CommitFails] is the [conn.commit()] of the pipeline
    raising. *)
Inductive DbFault : Type :=
| NoFault
| ConnectFails (msg : string)
| CreateFails (msg : string)
| BeginFails (msg : string)
| AppendFails (inserted : nat) (msg : string)
| CommitFails (msg : string).

Record Table : Type := mkTable {
  t_columns : list (string * string);
  t_rows : list Row
}.

(** The database file [news.db]: the committed table [news] if it exists,
    the rows of the open transaction, the number of connections currently
    held open and the number of connections made so far. *)
Record Store : Type := mkStore {
  news : option Table;
  txn : option (list Row);
  open_conns : nat;
  connects : nat
}.

(** Rows a fresh reader of the store sees. *)
Definition stored_rows (s : Store) : list Row :=
  match news s with
  | Some t => t_rows t
  | None => []
  end.

Definition row_count (s : Store) : nat := length (stored_rows s).

(** Observable effects, in the order they happen. *)
Inductive Event : Type :=
| EvPrint (line : string)
| EvHttpGet (url : string)
| EvConnect (file : string)
| EvExecute (sql : string)
| EvToSql (table : string) (rows : nat)
| EvCommit
| EvRollback
| EvClose
| EvToCsv (file : string)
| EvSleep (seconds : nat).

Record World : Type := mkWorld {
  environ : gmap string string;
  dotenv_file : gmap string string;
  clock : nat -> DateTime;
  ticks : nat;
  network : nat -> string -> HttpOutcome;
  db_fault : nat -> DbFault;
  db : Store;
  files : gmap string DataFrame;
  trace : list Event
}.

Definition set_environ (f : gmap string string -> gmap string string) (w : World) : World :=
  mkWorld (f (environ w)) (dotenv_file w) (clock w) (ticks w) (network w)
          (db_fault w) (db w) (files w) (trace w).

Definition set_ticks (f : nat -> nat) (w : World) : World :=
  mkWorld (environ w) (dotenv_file w) (clock w) (f (ticks w)) (network w)
          (db_fault w) (db w) (files w) (trace w).

Definition set_db (f : Store -> Store) (w : World) : World :=
  mkWorld (environ w) (dotenv_file w) (clock w) (ticks w) (network w)
          (db_fault w) (f (db w)) (files w) (trace w).

Definition set_files (f : gmap string DataFrame -> gmap string DataFrame) (w : World) : World :=
  mkWorld (environ w) (dotenv_file w) (clock w) (ticks w) (network w)
          (db_fault w) (db w) (f (files w)) (trace w).

Definition emit (e : Event) (w : World) : World :=
  mkWorld (environ w) (dotenv_file w) (clock w) (ticks w) (network w)
          (db_fault w) (db w) (files w) (trace w ++ [e]).

(** Projections of a trace. *)
Definition requests_of (t : list Event) : list string :=
  omap (fun e => match e with EvHttpGet u => Some u | _ => None end) t.

Definition stdout_of (t : list Event) : list string :=
  omap (fun e => match e with EvPrint l => Some l | _ => None end) t.

Definition backups_of (t : list Event) : list string :=
  omap (fun e => match e with EvToCsv f => Some f | _ => None end) t.

(** ** Computations: state passing with exceptions *)

Definition M (A : Type) : Type := World -> Outcome A * World.

#[global] Instance M_ret : MRet M := fun A a w => (Return a, w).

#[global] Instance M_bind : MBind M := fun A B k m w =>
  match m w with
  | (Return a, w') => k a w'
  | (Raise e, w') => (Raise e, w')
  end.

Definition raise {A : Type} (e : exn) : M A := fun w => (Raise e, w).

(** A pure computation that may raise. *)
Definition lift {A : Type} (o : Outcome A) : M A := fun w => (o, w).

(** [try: body / except <catches> as e: handler e] *)
Definition try_except {A : Type} (body : M A) (catches : exn -> bool)
    (handler : exn -> M A) : M A := fun w =>
  match body w with
  | (Return a, w') => (Return a, w')
  | (Raise e, w') => if catches e then handler e w' else (Raise e, w')
  end.

(** [try: body / finally: cleanup]: the cleanup always runs; what the body
    returned or raised stands unless the cleanup itself raises. *)
Definition try_finally {A : Type} (body : M A) (cleanup : M unit) : M A := fun w =>
  match body w with
  | (r, w') =>
      match cleanup w' with
      | (Return _, w'') => (r, w'')
      | (Raise e, w'') => (Raise e, w'')
      end
  end.

Definition do (f : World -> World) : M unit := fun w => (Return tt, f w).

(** ** Library calls *)

Definition print (line : string) : M unit := do (emit (EvPrint line)).

(** [datetime.now()]: each reading takes the next value of the clock. *)
Definition datetime_now : M DateTime := fun w =>
  (Return (clock w (ticks w)), set_ticks S w).

(** [load_dotenv()]: variables of the [.env] file enter the environment
    unless already set there. *)
Definition load_dotenv : M unit :=
  fun w => (Return tt, set_environ (fun env => env ∪ dotenv_file w) w).

Definition os_getenv (name : string) : M (option string) :=
  fun w => (Return (environ w !! name), w).

(** [sleep(n)] *)
Definition sleep (seconds : nat) : M unit := do (emit (EvSleep seconds)).

Definition curr_time : M string :=
  t ← datetime_now; mret (strftime_log t).

(** [print(f"[{curr_time()}] {msg}")] *)
Definition log (msg : string) : M unit :=
  t ← curr_time; print ("[" ++ t ++ "] " ++ msg).

(** [requests.get(url)]: the [n]-th request of the process meets
    [network w n url]. *)
Definition requests_get (url : string) : M Response := fun w =>
  let w' := emit (EvHttpGet url) w in
  match network w (length (requests_of (trace w))) url with
  | ConnectionFailed msg => (Raise (RequestException msg), w')
  | Responded r => (Return r, w')
  end.

(** *** SQLite *)

Inductive Statement : Type :=
| CreateTableIfNotExists (table : string) (column_defs : list (string * string))
| Begin.

Definition sql_text (q : Statement) : string :=
  match q with
  | CreateTableIfNotExists t defs =>
      "CREATE TABLE IF NOT EXISTS " ++ t ++ " (" ++
      String.concat ", " (map (fun d => fst d ++ " " ++ snd d) defs) ++ ")"
  | Begin => "BEGIN"
  end.

Record Conn : Type := mkConn { conn_id : nat }.

Definition sqlite3_connect (file : string) : M Conn := fun w =>
  let id := connects (db w) in
  let w1 := emit (EvConnect file)
              (set_db (fun s => mkStore (news s) (txn s) (open_conns s) (S (connects s))) w) in
  match db_fault w id with
  | ConnectFails msg => (Raise (DatabaseError msg), w1)
  | _ =>
      (Return (mkConn id),
       set_db (fun s => mkStore (news s) (txn s) (S (open_conns s)) (connects s)) w1)
  end.

(** [conn.execute(sql)] for the two statements the pipeline issues.  The
    table is created outside any transaction, so it stays whatever happens
    to the transaction begun afterwards. *)
Definition conn_execute (conn : Conn) (q : Statement) : M unit := fun w =>
  let w1 := emit (EvExecute (sql_text q)) w in
  match q, db_fault w (conn_id conn) with
  | CreateTableIfNotExists _ _, CreateFails msg => (Raise (DatabaseError msg), w1)
  | CreateTableIfNotExists _ defs, _ =>
      (Return tt,
       set_db (fun s => mkStore (match news s with
                                 | Some t => Some t
                                 | None => Some (mkTable defs [])
                                 end) (txn s) (open_conns s) (connects s)) w1)
  | Begin, BeginFails msg => (Raise (DatabaseError msg), w1)
  | Begin, _ =>
      (Return tt, set_db (fun s => mkStore (news s) (Some []) (open_conns s) (connects s)) w1)
  end.

(** [df.to_sql(name, con=conn, if_exists="append", index=False)].  pandas
    runs the insert as a transaction of its own on the connection: when
    every row went in it commits, and with that whatever the connection had
    pending; when a row is refused it rolls back and raises the error.
    Either way no transaction is open once the call is over.  A table that
    is missing is created from the frame's columns. *)
Definition to_sql (df : DataFrame) (name : string) (conn : Conn) : M unit := fun w =>
  match db_fault w (conn_id conn) with
  | AppendFails k msg =>
      let done := take k (df_rows df) in
      (Raise (DatabaseError msg),
       emit (EvToSql name (length done))
         (set_db (fun s => mkStore (news s) None (open_conns s) (connects s)) w))
  | _ =>
      (Return tt,
       emit (EvToSql name (length (df_rows df)))
         (set_db (fun s =>
            mkStore
              (Some match news s with
                    | Some t =>
                        mkTable (t_columns t)
                          (t_rows t ++ default [] (txn s) ++ df_rows df)%list
                    | None =>
                        mkTable (map (fun c => (c, "TEXT")) (df_columns df))
                          (default [] (txn s) ++ df_rows df)%list
                    end)
              None (open_conns s) (connects s)) w))
  end.

(** [conn.commit()]: what the connection has pending reaches the table and
    the transaction ends; with no transaction open, as after [to_sql],
    nothing changes. *)
Definition conn_commit (conn : Conn) : M unit := fun w =>
  let w1 := emit EvCommit w in
  match db_fault w (conn_id conn) with
  | CommitFails msg => (Raise (DatabaseError msg), w1)
  | _ =>
      (Return tt,
       set_db (fun s => mkStore (match news s with
                                 | Some t => Some (mkTable (t_columns t)
                                                     (t_rows t ++ default [] (txn s))%list)
                                 | None => None
                                 end) None (open_conns s) (connects s)) w1)
  end.

Definition conn_rollback (conn : Conn) : M unit :=
  do (fun w => emit EvRollback
         (set_db (fun s => mkStore (news s) None (open_conns s) (connects s)) w)).

(** [conn.close()]: whatever is uncommitted is dropped. *)
Definition conn_close (conn : Conn) : M unit :=
  do (fun w => emit EvClose
         (set_db (fun s => mkStore (news s) None (pred (open_conns s)) (connects s)) w)).

(** [df.to_csv(file, index=False)]: the file holds the header row of the
    frame's columns and then its rows; a file of that name is replaced. *)
Definition to_csv (df : DataFrame) (file : string) : M unit :=
  do (fun w => emit (EvToCsv file) (set_files (fun fs => <[file := df]> fs) w)).

(** ** The pipeline *)

Definition DB_FILE : string := "news.db".
Definition BASE_URL : string := "http://api.mediastack.com/v1".

Definition columns : list string :=
  ["author"; "title"; "description"; "url"; "source"; "image"; "category";
   "language"; "country"; "published_at"].

Definition dquote : string := String (ascii_of_nat 34) EmptyString.

Inductive LoopState : Type :=
| Looping
| Escaped (e : exn).

(** ** Sample worlds *)

Definition sample_clock (n : nat) : DateTime :=
  mkDateTime 2025 2 9 22 (55 + n / 60) (n mod 60).

(** A fresh process: the key, if any, comes from the [.env] file; every
    request gets the answer [net]; every connection meets [fault]; the
    database file is new and nothing has happened yet. *)
Definition sample_world (key : option string) (net : HttpOutcome) (fault : DbFault)
    : World :=
  mkWorld ∅
          (match key with Some k => {["API_KEY" := k]} | None => ∅ end)
          sample_clock 0 (fun _ _ => net) (fun _ => fault)
          (mkStore None None 0 0) ∅ [].

(** Stand-ins for the library behaviour the pipeline is parametric in. *)
Definition sample_str (j : json) : string := "{...}".

Definition sample_irregular (data : json) (cols : list string) : Outcome DataFrame :=
  Raise (PandasError "data is not a list of records").

(** Enough of the dtype inference for columns of text: a null in a column
    that holds nothing but nulls and gaps becomes the missing-value marker,
    every other value is kept. *)
Definition sample_infer (column : list Cell) (v : json) : Cell :=
  match v with
  | JNull =>
      if forallb (fun c => match c with
                           | None | Some JNull => true
                           | _ => false
                           end) column
      then None else Some JNull
  | _ => Some v
  end.

(** The API refuses the request: status 429 with its own JSON error. *)
Definition rate_limited : Response :=
  mkResponse 429 "Too Many Requests"
    (ValidJson (JObj [("error", JObj [("code", JStr "rate_limit_reached");
                                      ("message", JStr "Rate limit reached")])])).

(** A 200 answer that carries no [data]. *)
Definition no_data : list (string * json) :=
  [("pagination", JObj [("limit", JNum "100"); ("count", JNum "0")])].

(** An error page of a gateway: status 502 and a body that is not JSON. *)
Definition bad_gateway : Response :=
  mkResponse 502 "Bad Gateway" (InvalidJson "Expecting value: line 1 column 1 (char 0)").

Definition sample_record : list (string * json) :=
  [("author", JStr "Romain Dillet");
   ("title", JStr "Investments in French AI ecosystem reach $85B");
   ("url", JStr "https://techcrunch.com/2025/02/09/investments");
   ("source", JStr "TechCrunch");
   ("image", JNull);
   ("category", JStr "technology");
   ("language", JStr "en");
   ("country", JStr "us");
   ("published_at", JStr "2025-02-09T15:06:32+00:00");
   ("sentiment", JNum "0.5")].

Definition two_articles : list (string * json) :=
  [("pagination", JObj [("limit", JNum "100"); ("count", JNum "2")]);
   ("data", JArr [JObj sample_record; JObj [("title", JStr "How to read burnt scrolls")]])].

Definition sample_frame : DataFrame :=
  mkDataFrame
    ["author"; "title"; "description"; "url"; "source"; "image"; "category";
     "language"; "country"; "published_at"]
    [[Some (JStr "Romain Dillet"); Some (JStr "How to read burnt scrolls"); None;
      None; Some (JStr "Business Line"); Some JNull; Some (JStr "business");
      Some (JStr "en"); Some (JStr "us"); Some (JStr "2025-02-09T14:56:11+00:00")]].

(** A 200 answer in which the API reports an error of its own. *)
Definition api_error : Response :=
  mkResponse 200 "OK"
    (ValidJson (JObj [("error", JObj [("code", JStr "invalid_access_key");
                                      ("message", JStr "You have not supplied a valid API Access Key.")])])).

(** The same without the text of the error. *)
Definition terse_error : list (string * json) :=
  [("error", JObj [("code", JStr "invalid_access_key")])].

(** The two articles again, without what the schema does not name. *)
Definition two_articles_trimmed : list (string * json) :=
  [("data", JArr [JObj (removelast sample_record);
                  JObj [("title", JStr "How to read burnt scrolls")]])].

Section Pipeline.

(** Behaviour of the libraries that the notebook does not fix:
    - [str(v)] of a decoded JSON value that is not itself a string;
    - whether the error [response.json()] raises on a body that is not
      JSON derives from [requests.exceptions.RequestException] (it does
      from requests 2.27 on, and is a plain [ValueError] before);
    - what [DataFrame.from_records] makes of data that is not a list of
      dicts;
    - how [DataFrame.from_records] keeps a value once it has inferred the
      dtype of its column from everything the column holds: a null in a
      column of nulls and gaps becomes the missing-value marker, an integer
      in a column with a gap becomes a float, a string among strings stays
      as it is. *)
Variable py_str_json : json -> string.
Variable json_error_is_request_exception : bool.
Variable from_records_irregular : json -> list string -> Outcome DataFrame.
Variable infer_value : list Cell -> json -> Cell.

Definition py_str (v : json) : string :=
  match v with
  | JStr s => s
  | _ => py_str_json v
  end.

(** [str(e)] *)
Definition exn_str (e : exn) : string :=
  match e with
  | SystemExit (CodeStr s) => s
  | SystemExit (CodeRequestException m) => m
  | SystemExit (CodeJson j) => py_str j
  | _ => exn_message e
  end.

(** [response.json()] *)
Definition response_json (r : Response) : M json :=
  match body r with
  | ValidJson j => mret j
  | InvalidJson msg =>
      raise (if json_error_is_request_exception
             then RequestException msg else JSONDecodeError msg)
  end.

Definition request_url (key : string) (num_articles : nat) : string :=
  BASE_URL ++ "/news?access_key=" ++ key ++
  "&languages=en&keywords=ai&sort=published_desc&limit=" ++ pretty num_articles.

Definition fetch : M json :=
  load_dotenv;;
  API_KEY ← os_getenv "API_KEY";
  if negb (py_truthy API_KEY) then
    log "Error: API Key not found! Check your .env file.";;
    raise (SystemExit (CodeStr "Missing API Key"))
  else
    let num_articles := 100 in
    let url := request_url (py_format API_KEY) num_articles in
    log "Collecting news...";;
    got ← try_except
            (response ← requests_get url;
             result ← response_json response;
             mret (response, result))
            is_RequestException
            (fun e =>
               log "API request failed: connection error";;
               raise (SystemExit (CodeRequestException (exn_message e))));
    let response := fst got in
    let result := snd got in
    if negb (Nat.eqb (status_code response) 200) then
      log "API request failed: HTTP error";;
      raise (SystemExit (CodeStr ("Error " ++ pretty (status_code response) ++
                                  ": " ++ reason response)))
    else
      has_error ← lift (py_contains "error" result);
      if has_error : bool then
        t ← curr_time;
        err ← lift (py_getitem result "error");
        message ← lift (py_getitem err "message");
        print ("[" ++ t ++ "] API request failed: " ++ py_str message);;
        err' ← lift (py_getitem result "error");
        raise (SystemExit (CodeJson err'))
      else
        log "News collected, processing...";;
        mret result.

(** The records of a list of dicts. *)
Definition as_records (data : json) : option (list (list (string * json))) :=
  match data with
  | JArr items =>
      mapM (fun v => match v with JObj d => Some d | _ => None end) items
  | _ => None
  end.

(** The cell made of what a record has under a column, [column] being
    what all the records have under it: a gap stays a gap, a value is kept
    as the dtype of the column has it. *)
Definition frame_cell (column : list Cell) (found : option json) : Cell :=
  match found with
  | None => None
  | Some v => infer_value column v
  end.

(** The row made of one record among [records]. *)
Definition frame_row (cols : list string) (records : list (list (string * json)))
    (r : list (string * json)) : Row :=
  map (fun c => frame_cell (map (dict_get c) records) (dict_get c r)) cols.

(** [pd.DataFrame.from_records(data, columns=cols)]: one row per record, one
    cell per column of [cols]; a column the record lacks gets the
    missing-value marker, and the record's other keys are not looked at. *)
Definition from_records (data : json) (cols : list string) : Outcome DataFrame :=
  match as_records data with
  | Some records => Return (mkDataFrame cols (map (frame_row cols records) records))
  | None => from_records_irregular data cols
  end.

Definition process (result : json) : Outcome DataFrame :=
  match py_getitem result "data" with
  | Return data => from_records data columns
  | Raise e => Raise e
  end.

Definition query_columns : string :=
  String.concat ", " (map (fun c => c ++ " TEXT") columns).

Definition create_db_query : string :=
  "CREATE TABLE IF NOT EXISTS news (" ++ query_columns ++ ")".

Definition create_news : Statement :=
  CreateTableIfNotExists "news" (map (fun c => (c, "TEXT")) columns).

Definition backup_name (t : DateTime) : string :=
  "news_" ++ strftime_date t ++ ".csv".

Definition store (df : DataFrame) : M unit :=
  conn ← sqlite3_connect DB_FILE;
  conn_execute conn create_news;;
  log "Saving into the database...";;
  conn_execute conn Begin;;
  try_finally
    (try_except
       (to_sql df "news" conn;;
        conn_commit conn;;
        log "News saved successfully")
       is_Exception
       (fun e =>
          print (exn_str e);;
          log "Failed to save the news to the database, saving to CSV...";;
          conn_rollback conn;;
          now ← datetime_now;
          to_csv df (backup_name now);;
          log "News saved to CSV"))
    (conn_close conn).

Definition main : M unit :=
  result ← fetch;
  df ← lift (process result);
  store df.

(** The [try]/[except SystemExit] part of one turn of the loop. *)
Definition attempt (interval_seconds : nat) : M unit :=
  try_except main is_SystemExit
    (fun e =>
       t ← curr_time;
       print ("[" ++ t ++ "] Error: " ++ dquote ++ exn_str e ++ dquote ++
              ". Repeating in " ++ pretty interval_seconds ++ " seconds")).

(** One turn of the [while True] loop. *)
Definition iteration (interval_seconds : nat) : M unit :=
  try_finally (attempt interval_seconds) (sleep interval_seconds).

(** The loop never ends by itself: [run_periodically n rounds] runs its
    first [rounds] turns and says whether it is still looping after them or
    an exception left it. *)
Fixpoint run_periodically (interval_seconds : nat) (rounds : nat) (w : World)
    : LoopState * World :=
  match rounds with
  | 0 => (Looping, w)
  | S k =>
      match iteration interval_seconds w with
      | (Return _, w') => run_periodically interval_seconds k w'
      | (Raise e, w') => (Escaped e, w')
      end
  end.

(** ** Terms of the properties *)

(** What [os.getenv("API_KEY")] returns once [load_dotenv()] has run. *)
Definition credential (w : World) : option string :=
  (environ w ∪ dotenv_file w) !! "API_KEY".

(** The store write of the transaction (append, then commit) raises. *)
Definition write_fails (f : DbFault) : bool :=
  match f with
  | AppendFails _ _ | CommitFails _ => true
  | _ => false
  end.

(** The world right after the request of this run left. *)
Definition sent (w : World) (key : string) : World :=
  emit (EvHttpGet (request_url key 100))
    (emit (EvPrint ("[" ++ strftime_log (clock w (ticks w)) ++ "] Collecting news..."))
       (set_ticks S (set_environ (fun env => env ∪ dotenv_file w) w))).

(** The answer the network gives to the request of this run. *)
Definition answer (w : World) (key : string) : HttpOutcome :=
  network w (length (requests_of (trace w))) (request_url key 100).

(** The sleeps of a trace, in order. *)
Definition sleeps_of (t : list Event) : list nat :=
  omap (fun e => match e with EvSleep n => Some n | _ => None end) t.

(** The message of a fault raised before the transaction is under way:
    on connecting, on creating the table or on [BEGIN]. *)
Definition setup_fault (f : DbFault) : option string :=
  match f with
  | ConnectFails m | CreateFails m | BeginFails m => Some m
  | _ => None
  end.

(** ** Running the computations *)

Ltac run :=
  cbv beta iota zeta delta
    [fetch store main attempt iteration
     mbind M_bind mret M_ret raise lift try_except try_finally do
     log curr_time print datetime_now load_dotenv os_getenv sleep
     requests_get response_json
     sqlite3_connect conn_execute to_sql conn_commit conn_rollback conn_close to_csv
     create_news
     is_RequestException is_SystemExit is_Exception];
  cbn [emit set_ticks set_environ set_db set_files
       environ dotenv_file clock ticks network db_fault db files trace
       news txn open_conns connects conn_id fst snd negb].

Lemma requests_of_snoc (t : list Event) (e : Event) :
  requests_of (t ++ [e]) =
  (requests_of t ++ match e with EvHttpGet u => [u] | _ => [] end)%list.
Proof.
  unfold requests_of. rewrite omap_app. destruct e; reflexivity.
Qed.

Lemma backups_of_snoc (t : list Event) (e : Event) :
  backups_of (t ++ [e]) =
  (backups_of t ++ match e with EvToCsv f => [f] | _ => [] end)%list.
Proof.
  unfold backups_of. rewrite omap_app. destruct e; reflexivity.
Qed.

Lemma stdout_of_snoc (t : list Event) (e : Event) :
  stdout_of (t ++ [e]) =
  (stdout_of t ++ match e with EvPrint l => [l] | _ => [] end)%list.
Proof.
  unfold stdout_of. rewrite omap_app. destruct e; reflexivity.
Qed.

Ltac traces :=
  rewrite ?requests_of_snoc, ?backups_of_snoc, ?stdout_of_snoc;
  cbv beta iota; rewrite ?app_nil_r.

Lemma py_truthy_present (key : string) :
  key <> EmptyString -> py_truthy (Some key) = true.
Proof.
  intros H. unfold py_truthy.
  destruct (String.eqb_spec key EmptyString); [contradiction | reflexivity].
Qed.

Lemma sql_text_create_news : sql_text create_news = create_db_query.
Proof. reflexivity. Qed.

(** ** The Fetcher *)

(** Without a usable key the Fetcher prints one line and exits; nothing
    else happens. *)
Lemma fetch_without_key (w : World) :
  py_truthy (credential w) = false ->
  fetch w =
    (Raise (SystemExit (CodeStr "Missing API Key")),
     emit (EvPrint ("[" ++ strftime_log (clock w (ticks w)) ++
                    "] Error: API Key not found! Check your .env file."))
       (set_ticks S (set_environ (fun env => env ∪ dotenv_file w) w))).
Proof.
  intros H. unfold credential in H. run. rewrite H. reflexivity.
Qed.

(** C2: when the credential lookup yields no API key, the Fetcher raises
    [SystemExit("Missing API Key")]; the only effect of the run is the line
    it prints, so no HTTP request is issued. *)
Theorem fetch_absent_key_no_request (w : World) :
  credential w = None ->
  exists w',
    fetch w = (Raise (SystemExit (CodeStr "Missing API Key")), w') /\
    trace w' = (trace w ++
      [EvPrint ("[" ++ strftime_log (clock w (ticks w)) ++
                "] Error: API Key not found! Check your .env file.")])%list /\
    requests_of (trace w') = requests_of (trace w).
Proof.
  intros H. eexists. split.
  - apply fetch_without_key. rewrite H. reflexivity.
  - split; [reflexivity | ]. run. traces. reflexivity.
Qed.

(** C9: an API key that is set to the empty string is treated as an absent
    one: the same [SystemExit("Missing API Key")], the same printed line,
    and no HTTP request. *)
Theorem fetch_empty_key_no_request (w : World) :
  credential w = Some EmptyString ->
  exists w',
    fetch w = (Raise (SystemExit (CodeStr "Missing API Key")), w') /\
    trace w' = (trace w ++
      [EvPrint ("[" ++ strftime_log (clock w (ticks w)) ++
                "] Error: API Key not found! Check your .env file.")])%list /\
    requests_of (trace w') = requests_of (trace w).
Proof.
  intros H. eexists. split.
  - apply fetch_without_key. rewrite H. reflexivity.
  - split; [reflexivity | ]. run. traces. reflexivity.
Qed.

(** C6: with an API key present the Fetcher issues exactly one GET, whatever
    the network answers, and its URL is
    [<base-url>/news?access_key=<key>&languages=en&keywords=ai&sort=published_desc&limit=100]. *)
Theorem fetch_issues_one_request (w : World) (key : string) :
  credential w = Some key ->
  key <> EmptyString ->
  requests_of (trace (snd (fetch w))) =
    (requests_of (trace w) ++ [request_url key 100])%list /\
  request_url key 100 =
    "http://api.mediastack.com/v1/news?access_key=" ++ key ++
    "&languages=en&keywords=ai&sort=published_desc&limit=100".
Proof.
  intros Hk Hne. split; [ | reflexivity].
  pose proof (py_truthy_present key Hne) as Ht.
  unfold credential in Hk. run. rewrite Hk, Ht. run.
  destruct (network _ _ _) as [msg | r]; run; [traces; reflexivity | ].
  destruct (body r) as [j | msg]; run.
  - destruct (status_code r =? 200)%nat; run; [ | traces; reflexivity].
    destruct (py_contains "error" j) as [[|]|e]; run; try (traces; reflexivity).
    destruct (py_getitem j "error") as [err|e]; run; [ | traces; reflexivity].
    destruct (py_getitem err "message") as [m|e]; run; traces; reflexivity.
  - destruct json_error_is_request_exception; run; traces; reflexivity.
Qed.

(** What the Fetcher does once the request is on its way, by kind of
    answer. *)
Lemma fetch_with_key (w : World) (key : string) :
  credential w = Some key ->
  key <> EmptyString ->
  fetch w =
    match answer w key with
    | ConnectionFailed msg =>
        (log "API request failed: connection error";;
         raise (SystemExit (CodeRequestException msg))) (sent w key)
    | Responded r =>
        match body r with
        | InvalidJson msg =>
            if json_error_is_request_exception
            then (log "API request failed: connection error";;
                  raise (SystemExit (CodeRequestException msg))) (sent w key)
            else (Raise (JSONDecodeError msg), sent w key)
        | ValidJson result =>
            if negb (status_code r =? 200)%nat
            then (log "API request failed: HTTP error";;
                  raise (SystemExit (CodeStr ("Error " ++ pretty (status_code r) ++
                                              ": " ++ reason r)))) (sent w key)
            else (has_error ← lift (py_contains "error" result);
                  if has_error : bool then
                    t ← curr_time;
                    err ← lift (py_getitem result "error");
                    message ← lift (py_getitem err "message");
                    print ("[" ++ t ++ "] API request failed: " ++ py_str message);;
                    err' ← lift (py_getitem result "error");
                    raise (SystemExit (CodeJson err'))
                  else
                    log "News collected, processing...";;
                    mret result) (sent w key)
        end
    end.
Proof.
  intros Hk Hne. pose proof (py_truthy_present key Hne) as Ht.
  unfold credential in Hk. unfold answer, sent. run. rewrite Hk, Ht. run.
  traces.
  destruct (network _ _ _) as [msg | r]; run; [reflexivity | ].
  destruct (body r) as [j | msg]; run.
  - destruct (status_code r =? 200)%nat; reflexivity.
  - destruct json_error_is_request_exception; reflexivity.
Qed.

(** X1: Transport error: the connection fails. *)
Lemma fetch_transport_error (w : World) (key msg : string) :
  credential w = Some key ->
  key <> EmptyString ->
  answer w key = ConnectionFailed msg ->
  fst (fetch w) = Raise (SystemExit (CodeRequestException msg)).
Proof.
  intros Hk Hne Ha. rewrite (fetch_with_key w key Hk Hne), Ha. reflexivity.
Qed.

(** X2: Protocol error: a status other than 200 on an answer whose body is
    JSON. *)
Lemma fetch_protocol_error (w : World) (key : string) (r : Response) (j : json) :
  credential w = Some key ->
  key <> EmptyString ->
  answer w key = Responded r ->
  body r = ValidJson j ->
  status_code r <> 200 ->
  fst (fetch w) =
    Raise (SystemExit (CodeStr ("Error " ++ pretty (status_code r) ++ ": " ++ reason r))).
Proof.
  intros Hk Hne Ha Hb Hs. rewrite (fetch_with_key w key Hk Hne), Ha, Hb.
  destruct (Nat.eqb_spec (status_code r) 200); [contradiction | reflexivity].
Qed.

(** X3: Application error: status 200 and an object with an [error] member that
    has a [message]. *)
Lemma fetch_application_error (w : World) (key : string) (r : Response)
    (o : list (string * json)) (err message : json) :
  credential w = Some key ->
  key <> EmptyString ->
  answer w key = Responded r ->
  body r = ValidJson (JObj o) ->
  status_code r = 200 ->
  dict_get "error" o = Some err ->
  py_getitem err "message" = Return message ->
  fst (fetch w) = Raise (SystemExit (CodeJson err)).
Proof.
  intros Hk Hne Ha Hb Hs He Hm. rewrite (fetch_with_key w key Hk Hne), Ha, Hb, Hs.
  run. unfold py_contains, py_getitem at 1 3. rewrite He.
  rewrite bool_decide_eq_true_2 by eauto. run. rewrite Hm. reflexivity.
Qed.

(** A 200 answer with an object that has no [error] member is returned as
    it is. *)
Lemma fetch_success (w : World) (key : string) (r : Response)
    (o : list (string * json)) :
  credential w = Some key ->
  key <> EmptyString ->
  answer w key = Responded r ->
  body r = ValidJson (JObj o) ->
  status_code r = 200 ->
  dict_get "error" o = None ->
  fetch w =
    (Return (JObj o),
     emit (EvPrint ("[" ++ strftime_log (clock w (S (ticks w))) ++
                    "] News collected, processing..."))
       (set_ticks S (sent w key))).
Proof.
  intros Hk Hne Ha Hb Hs He. rewrite (fetch_with_key w key Hk Hne), Ha, Hb, Hs.
  run. unfold py_contains. rewrite He.
  rewrite bool_decide_eq_false_2 by (intros [x Hx]; discriminate). reflexivity.
Qed.

(** ** The Normalizer *)

Lemma as_records_objects (records : list (list (string * json))) :
  as_records (JArr (JObj <$> records)) = Some records.
Proof.
  unfold as_records. induction records as [ | r records IH]; [reflexivity | ].
  rewrite fmap_cons. cbn. rewrite IH. reflexivity.
Qed.

Lemma map_agree {A B : Type} (f g : A -> B) (l l' : list A) :
  Forall2 (fun x x' => f x = g x') l l' -> map f l = map g l'.
Proof.
  induction 1 as [ | x x' l l' Hx _ IH]; [reflexivity | ].
  cbn [map]. rewrite Hx, IH. reflexivity.
Qed.

(** Records that agree on the schema keys make the same rows. *)
Lemma agree_rows (records records' : list (list (string * json))) :
  Forall2 (fun r r' => forall c, In c columns -> dict_get c r = dict_get c r')
          records records' ->
  map (frame_row columns records) records = map (frame_row columns records') records'.
Proof.
  intros H. apply map_agree.
  assert (Hcol : forall c, In c columns ->
            map (dict_get c) records = map (dict_get c) records').
  { intros c Hc. apply map_agree.
    eapply Forall2_impl; [exact H | ]. intros r r' Hr. exact (Hr c Hc). }
  eapply Forall2_impl; [exact H | ]. intros r r' Hr.
  unfold frame_row. apply map_ext_in. intros c Hc.
  rewrite (Hcol c Hc), (Hr c Hc). reflexivity.
Qed.


(** ** The Persister *)

(** X24: when [to_sql] fails, after however many rows, [store] returns
    normally; the rows a reader of the store sees, and so their count, are
    those from before the call; no transaction is left open; the backup
    file holds the frame as it was given; and the last line printed reports
    the save to CSV. *)
Theorem store_append_failure_rolls_back (df : DataFrame) (w : World)
    (k : nat) (m : string) :
  db_fault w (connects (db w)) = AppendFails k m ->
  exists w',
    store df w = (Return tt, w') /\
    stored_rows (db w') = stored_rows (db w) /\
    row_count (db w') = row_count (db w) /\
    txn (db w') = None /\
    In EvRollback (trace w') /\
    files w' !! backup_name (clock w (2 + ticks w)) = Some df /\
    last (stdout_of (trace w')) =
      Some ("[" ++ strftime_log (clock w (3 + ticks w)) ++ "] News saved to CSV").
Proof.
  intros E. eexists. repeat progress (run; rewrite ?E).
  split; [reflexivity | ]. unfold row_count, stored_rows. run.
  destruct (news (db w)) as [t | ]; cbn [t_rows];
    (repeat split; try reflexivity;
     [ rewrite !in_app_iff; cbn; tauto
     | apply lookup_insert_eq
     | traces; apply last_snoc ]).
Qed.

(** C7: [store] writes a backup file exactly when the append or the commit
    of its transaction fails.  The file is then named
    [news_<YYYY>_<MM>_<DD>.csv] after the date the clock shows at the write
    and holds the frame given to [store]: its column names as the header
    row, then its rows.  Otherwise, and so after a commit that succeeded,
    no file is written or changed. *)
Theorem backup_written_iff_write_fails (df : DataFrame) (w : World) :
  let f := db_fault w (connects (db w)) in
  let w' := snd (store df w) in
  let today := clock w (2 + ticks w) in
  let name := backup_name today in
  backups_of (trace w') =
    (backups_of (trace w) ++ (if write_fails f then [name] else []))%list /\
  (if write_fails f
   then files w' !! name = Some df
   else files w' = files w) /\
  name = "news_" ++ (pad4 (year today) ++ "_" ++ pad2 (month today) ++ "_" ++
                     pad2 (day today)) ++ ".csv".
Proof.
  cbv zeta. split; [ | split; [ | reflexivity]].
  - destruct (db_fault w (connects (db w))) as [ | m | m | m | k m | m] eqn:E;
      repeat progress (run; rewrite ?E); traces; reflexivity.
  - destruct (db_fault w (connects (db w))) as [ | m | m | m | k m | m] eqn:E;
      repeat progress (run; rewrite ?E); cbn [write_fails];
      try reflexivity; apply lookup_insert_eq.
Qed.

(** A store write without fault appends the rows of the frame, in order. *)
Lemma store_commit_appends (df : DataFrame) (w : World) :
  db_fault w (connects (db w)) = NoFault ->
  fst (store df w) = Return tt /\
  stored_rows (db (snd (store df w))) = (stored_rows (db w) ++ df_rows df)%list.
Proof.
  intros E. repeat progress (run; rewrite ?E). split; [reflexivity | ].
  unfold stored_rows. run.
  destruct (news (db w)) as [t | ]; cbn [t_rows app default];
    rewrite ?app_nil_r; reflexivity.
Qed.

(** Once the transaction has begun the connection is closed on every way
    out, and the table is there. *)
Lemma store_closes_connection_after_begin (df : DataFrame) (w : World) :
  match db_fault w (connects (db w)) with
  | NoFault | AppendFails _ _ | CommitFails _ =>
      open_conns (db (snd (store df w))) = open_conns (db w) /\
      last (trace (snd (store df w))) = Some EvClose /\
      is_Some (news (db (snd (store df w))))
  | _ => True
  end.
Proof.
  destruct (db_fault w (connects (db w))) as [ | m | m | m | k m | m] eqn:E;
    try exact I; repeat progress (run; rewrite ?E);
    (split; [reflexivity | split; [apply last_snoc | ]]);
    destruct (news (db w)); eauto.
Qed.

(** ** The Scheduler *)

Ltac run_loop :=
  cbv beta iota zeta delta
    [main attempt iteration mbind M_bind mret M_ret raise lift
     try_except try_finally do curr_time print datetime_now sleep
     emit set_ticks is_SystemExit];
  cbn [environ dotenv_file clock ticks network db_fault db files trace fst snd].

(** C5: in loop mode a [SystemExit] raised by the Fetcher, which is how it
    signals its configuration, transport, protocol and application errors,
    is caught: the turn prints the timestamped line with the error's
    message, sleeps the interval and ends normally, and the loop goes on
    with its next turn.  Every turn, whatever its run came to, ends with the
    same sleep of the interval. *)
Theorem scheduler_survives_fetch_errors (interval_seconds : nat) (w w1 : World)
    (code : ExitCode) :
  fetch w = (Raise (SystemExit code), w1) ->
  let line := "[" ++ strftime_log (clock w1 (ticks w1)) ++ "] Error: " ++ dquote ++
              exn_str (SystemExit code) ++ dquote ++
              ". Repeating in " ++ pretty interval_seconds ++ " seconds" in
  let w2 := emit (EvSleep interval_seconds) (emit (EvPrint line) (set_ticks S w1)) in
  iteration interval_seconds w = (Return tt, w2) /\
  (forall rounds : nat,
     run_periodically interval_seconds (S rounds) w =
     run_periodically interval_seconds rounds w2) /\
  (forall w0 : World,
     iteration interval_seconds w0 =
     (fst (attempt interval_seconds w0),
      emit (EvSleep interval_seconds) (snd (attempt interval_seconds w0)))).
Proof.
  intros H line w2.
  assert (Hi : iteration interval_seconds w = (Return tt, w2)).
  { subst line w2. run_loop. rewrite H. reflexivity. }
  split; [exact Hi | split].
  - intros rounds. cbn [run_periodically]. rewrite Hi. reflexivity.
  - intros w0. unfold iteration, try_finally, sleep, do.
    destruct (attempt interval_seconds w0) as [r w']. reflexivity.
Qed.

(** C10: a 200 answer whose body is an object with neither an [error] nor a
    [data] member.  The Fetcher returns it, the Normalizer raises
    [KeyError('data')], which is not a [SystemExit]; the turn of the loop
    prints no error line, sleeps, and lets the exception through, so the
    loop ends there instead of taking another turn. *)
Theorem missing_data_ends_loop (interval_seconds : nat) (w : World) (key : string)
    (r : Response) (o : list (string * json)) :
  credential w = Some key ->
  key <> EmptyString ->
  answer w key = Responded r ->
  status_code r = 200 ->
  body r = ValidJson (JObj o) ->
  dict_get "error" o = None ->
  dict_get "data" o = None ->
  exists w1,
    fetch w = (Return (JObj o), w1) /\
    process (JObj o) = Raise (KeyError "data") /\
    is_SystemExit (KeyError "data") = false /\
    iteration interval_seconds w =
      (Raise (KeyError "data"), emit (EvSleep interval_seconds) w1) /\
    (forall rounds : nat,
       run_periodically interval_seconds (S rounds) w =
       (Escaped (KeyError "data"), emit (EvSleep interval_seconds) w1)).
Proof.
  intros Hk Hne Ha Hs Hb He Hd.
  pose proof (fetch_success w key r o Hk Hne Ha Hb Hs He) as Hf.
  assert (Hp : process (JObj o) = Raise (KeyError "data")).
  { unfold process, py_getitem. rewrite Hd. reflexivity. }
  eexists. split; [exact Hf | ]. split; [exact Hp | ]. split; [reflexivity | ].
  assert (Hi : iteration interval_seconds w =
               (Raise (KeyError "data"),
                emit (EvSleep interval_seconds)
                  (emit (EvPrint ("[" ++ strftime_log (clock w (S (ticks w))) ++
                                  "] News collected, processing..."))
                     (set_ticks S (sent w key))))).
  { run_loop. rewrite Hf, Hp. reflexivity. }
  split; [exact Hi | ].
  intros rounds. cbn [run_periodically]. rewrite Hi. reflexivity.
Qed.

(** ** What each stage touches *)

Lemma sleeps_of_snoc (t : list Event) (e : Event) :
  sleeps_of (t ++ [e]) =
  (sleeps_of t ++ match e with EvSleep n => [n] | _ => [] end)%list.
Proof.
  unfold sleeps_of. rewrite omap_app. destruct e; reflexivity.
Qed.

Ltac effects :=
  rewrite ?requests_of_snoc, ?backups_of_snoc, ?stdout_of_snoc, ?sleeps_of_snoc;
  cbv beta iota; rewrite ?app_nil_r.

(** The Fetcher changes the environment, the clock reading and the trace,
    and nothing else. *)
Lemma fetch_effects (w : World) :
  db (snd (fetch w)) = db w /\
  files (snd (fetch w)) = files w /\
  db_fault (snd (fetch w)) = db_fault w /\
  clock (snd (fetch w)) = clock w /\
  network (snd (fetch w)) = network w /\
  dotenv_file (snd (fetch w)) = dotenv_file w /\
  environ (snd (fetch w)) = environ w ∪ dotenv_file w /\
  requests_of (trace (snd (fetch w))) =
    (requests_of (trace w) ++
     (if py_truthy (credential w)
      then [request_url (py_format (credential w)) 100] else []))%list /\
  sleeps_of (trace (snd (fetch w))) = sleeps_of (trace w) /\
  backups_of (trace (snd (fetch w))) = backups_of (trace w).
Proof.
  unfold credential. run.
  destruct (py_truthy ((environ w ∪ dotenv_file w) !! "API_KEY")); run;
    [ | repeat split; effects; reflexivity].
  destruct (network _ _ _) as [msg | r]; run;
    [repeat split; effects; reflexivity | ].
  destruct (body r) as [j | msg]; run.
  - destruct (status_code r =? 200)%nat; run;
      [ | repeat split; effects; reflexivity].
    destruct (py_contains "error" j) as [[|]|e]; run;
      try (repeat split; effects; reflexivity).
    destruct (py_getitem j "error") as [err|e]; run;
      [ | repeat split; effects; reflexivity].
    destruct (py_getitem err "message") as [m|e]; run;
      repeat split; effects; reflexivity.
  - destruct json_error_is_request_exception; run;
      repeat split; effects; reflexivity.
Qed.

(** The Persister leaves the environment, the clock and the network as they
    are, takes one connection number, and neither requests nor sleeps. *)
Lemma store_effects (df : DataFrame) (w : World) :
  db_fault (snd (store df w)) = db_fault w /\
  clock (snd (store df w)) = clock w /\
  network (snd (store df w)) = network w /\
  environ (snd (store df w)) = environ w /\
  dotenv_file (snd (store df w)) = dotenv_file w /\
  connects (db (snd (store df w))) = S (connects (db w)) /\
  requests_of (trace (snd (store df w))) = requests_of (trace w) /\
  sleeps_of (trace (snd (store df w))) = sleeps_of (trace w).
Proof.
  destruct (db_fault w (connects (db w))) as [ | m | m | m | k m | m] eqn:E;
    repeat progress (run; rewrite ?E); repeat split; effects; reflexivity.
Qed.

(** ** More of the Fetcher *)

Lemma py_getitem_raises (v : json) (k : string) (e : exn) :
  py_getitem v k = Raise e -> is_SystemExit e = false.
Proof.
  unfold py_getitem. destruct v as [ | b | n | s | l | d];
    try (intros [= <-]; reflexivity).
  destruct (dict_get k d); [discriminate | intros [= <-]; reflexivity].
Qed.

(** X4: A 200 answer whose [error] member has no [message] to print (it is not
    an object, or lacks the key): the lookup raises while the line is being
    formatted, so nothing about the failure is printed and what leaves
    [fetch] is that [KeyError] or [TypeError], not a [SystemExit]. *)
Theorem fetch_error_without_message_escapes (w : World) (key : string)
    (r : Response) (o : list (string * json)) (err : json) (e : exn) :
  credential w = Some key ->
  key <> EmptyString ->
  answer w key = Responded r ->
  body r = ValidJson (JObj o) ->
  status_code r = 200 ->
  dict_get "error" o = Some err ->
  py_getitem err "message" = Raise e ->
  fst (fetch w) = Raise e /\
  is_SystemExit e = false /\
  stdout_of (trace (snd (fetch w))) =
    (stdout_of (trace w) ++
     [("[" ++ strftime_log (clock w (ticks w)) ++ "] Collecting news...")%string])%list.
Proof.
  intros Hk Hne Ha Hb Hs He Hm.
  assert (Hf : fetch w = (Raise e, set_ticks S (sent w key))).
  { rewrite (fetch_with_key w key Hk Hne), Ha, Hb, Hs.
    run. unfold py_contains, py_getitem at 1. rewrite He.
    rewrite bool_decide_eq_true_2 by eauto. run. rewrite Hm. reflexivity. }
  rewrite Hf. split; [reflexivity | ].
  split; [exact (py_getitem_raises _ _ _ Hm) | ].
  unfold sent. run. effects. reflexivity.
Qed.

(** X5: A 200 answer whose decoded body holds no ["error"] comes back from
    [fetch] as it is, after the two lines of a good fetch. *)
Theorem fetch_returns_body (w : World) (key : string) (r : Response) (j : json) :
  credential w = Some key ->
  key <> EmptyString ->
  answer w key = Responded r ->
  body r = ValidJson j ->
  status_code r = 200 ->
  py_contains "error" j = Return false ->
  fst (fetch w) = Return j /\
  stdout_of (trace (snd (fetch w))) =
    (stdout_of (trace w) ++
     [("[" ++ strftime_log (clock w (ticks w)) ++ "] Collecting news...")%string;
      ("[" ++ strftime_log (clock w (S (ticks w))) ++
       "] News collected, processing...")%string])%list.
Proof.
  intros Hk Hne Ha Hb Hs Hc.
  assert (Hf : fetch w =
               (Return j,
                emit (EvPrint ("[" ++ strftime_log (clock w (S (ticks w))) ++
                               "] News collected, processing..."))
                  (set_ticks S (sent w key)))).
  { rewrite (fetch_with_key w key Hk Hne), Ha, Hb, Hs.
    run. rewrite Hc. reflexivity. }
  rewrite Hf. split; [reflexivity | ].
  unfold sent. run. effects. rewrite <- app_assoc. reflexivity.
Qed.

(** X6: Whatever the environment and the network do, [fetch] leaves the
    database and the files as they are, writes no backup, does not sleep,
    and puts at most one request on the wire. *)
Theorem fetch_leaves_store_alone (w : World) :
  db (snd (fetch w)) = db w /\
  files (snd (fetch w)) = files w /\
  backups_of (trace (snd (fetch w))) = backups_of (trace w) /\
  sleeps_of (trace (snd (fetch w))) = sleeps_of (trace w) /\
  length (requests_of (trace (snd (fetch w)))) <= S (length (requests_of (trace w))).
Proof.
  destruct (fetch_effects w) as (Hd & Hf & _ & _ & _ & _ & _ & Hr & Hs & Hb).
  repeat split; try assumption.
  rewrite Hr, length_app. destruct (py_truthy (credential w)); cbn; lia.
Qed.

(** ** More of the Normalizer *)

(** X7: Two bodies whose records agree, one by one, on the ten schema keys give
    the same frame: no other key of a record, and no other member of the
    body, has any influence. *)
Theorem process_reads_schema_keys_only (o o' : list (string * json))
    (records records' : list (list (string * json))) :
  dict_get "data" o = Some (JArr (JObj <$> records)) ->
  dict_get "data" o' = Some (JArr (JObj <$> records')) ->
  Forall2 (fun r r' => forall c, In c columns -> dict_get c r = dict_get c r')
          records records' ->
  process (JObj o) = process (JObj o').
Proof.
  intros Hd Hd' Hrs. unfold process, py_getitem. rewrite Hd, Hd'.
  unfold from_records. rewrite !as_records_objects.
  rewrite (agree_rows records records' Hrs). reflexivity.
Qed.

(** ** More of the Persister *)

(** X8: All or nothing: after [store] the committed rows are those from before
    followed by the whole frame when [to_sql] went through (no fault, or a
    fault only at the [conn.commit()] that follows it), and exactly those
    from before under every other fault. *)
Theorem store_all_or_nothing (df : DataFrame) (w : World) :
  stored_rows (db (snd (store df w))) =
    (stored_rows (db w) ++
     match db_fault w (connects (db w)) with
     | NoFault | CommitFails _ => df_rows df
     | _ => []
     end)%list.
Proof.
  destruct (db_fault w (connects (db w))) as [ | m | m | m | k m | m] eqn:E;
    repeat progress (run; rewrite ?E); unfold stored_rows; run;
    destruct (news (db w)) as [t | ]; cbn [t_rows app default];
    rewrite ?app_nil_r; reflexivity.
Qed.

(** X9: The table keeps its shape: an existing [news] table has the same
    columns after [store], whatever they were, and a table that [store]
    creates has the ten schema columns, all of type TEXT. *)
Theorem store_keeps_schema (df : DataFrame) (w : World) :
  match news (db w) with
  | Some t => t_columns <$> news (db (snd (store df w))) = Some (t_columns t)
  | None =>
      news (db (snd (store df w))) = None \/
      t_columns <$> news (db (snd (store df w))) =
        Some (map (fun c => (c, "TEXT")) columns)
  end.
Proof.
  destruct (db_fault w (connects (db w))) as [ | m | m | m | k m | m] eqn:E;
    repeat progress (run; rewrite ?E);
    destruct (news (db w)) as [t | ]; cbn; auto.
Qed.

(** X10: A fault on connecting, on creating the table or on [BEGIN] is not
    recovered: [store] raises it, and the frame is neither stored nor
    backed up. *)
Theorem store_setup_failure_propagates (df : DataFrame) (w : World) (m : string) :
  setup_fault (db_fault w (connects (db w))) = Some m ->
  fst (store df w) = Raise (DatabaseError m) /\
  stored_rows (db (snd (store df w))) = stored_rows (db w) /\
  files (snd (store df w)) = files w /\
  backups_of (trace (snd (store df w))) = backups_of (trace w).
Proof.
  intros Hf.
  destruct (db_fault w (connects (db w))) as [ | m' | m' | m' | k m' | m'] eqn:E;
    try discriminate Hf; injection Hf as ->;
    repeat progress (run; rewrite ?E);
    repeat split; try reflexivity; try (effects; reflexivity);
    unfold stored_rows; run; destruct (news (db w)) as [t | ]; reflexivity.
Qed.

(** X12: [store] leaves no transaction open behind it. *)
Theorem store_leaves_no_transaction (df : DataFrame) (w : World) :
  txn (db w) = None ->
  txn (db (snd (store df w))) = None.
Proof.
  intros Ht.
  destruct (db_fault w (connects (db w))) as [ | m | m | m | k m | m] eqn:E;
    repeat progress (run; rewrite ?E); auto.
Qed.

(** X13: The order in which [store] does things, under each fault: the table
    is created before anything is written; the append comes before the
    commit; after a failed append or commit the error is printed, the
    transaction rolled back and only then the backup written; the close
    comes last; and a fault before the transaction ends the call on the
    spot, with no close. *)
Theorem store_order_of_operations (df : DataFrame) (w : World) :
  trace (snd (store df w)) =
  (trace w ++
   match db_fault w (connects (db w)) with
   | ConnectFails _ => [EvConnect DB_FILE]
   | CreateFails _ => [EvConnect DB_FILE; EvExecute create_db_query]
   | BeginFails _ =>
       [EvConnect DB_FILE; EvExecute create_db_query;
        EvPrint ("[" ++ strftime_log (clock w (ticks w)) ++
                 "] Saving into the database...")%string;
        EvExecute "BEGIN"]
   | NoFault =>
       [EvConnect DB_FILE; EvExecute create_db_query;
        EvPrint ("[" ++ strftime_log (clock w (ticks w)) ++
                 "] Saving into the database...")%string;
        EvExecute "BEGIN";
        EvToSql "news" (length (df_rows df)); EvCommit;
        EvPrint ("[" ++ strftime_log (clock w (1 + ticks w)) ++
                 "] News saved successfully")%string;
        EvClose]
   | AppendFails k m =>
       [EvConnect DB_FILE; EvExecute create_db_query;
        EvPrint ("[" ++ strftime_log (clock w (ticks w)) ++
                 "] Saving into the database...")%string;
        EvExecute "BEGIN";
        EvToSql "news" (length (take k (df_rows df)));
        EvPrint m;
        EvPrint ("[" ++ strftime_log (clock w (1 + ticks w)) ++
                 "] Failed to save the news to the database, saving to CSV...")%string;
        EvRollback;
        EvToCsv (backup_name (clock w (2 + ticks w)));
        EvPrint ("[" ++ strftime_log (clock w (3 + ticks w)) ++
                 "] News saved to CSV")%string;
        EvClose]
   | CommitFails m =>
       [EvConnect DB_FILE; EvExecute create_db_query;
        EvPrint ("[" ++ strftime_log (clock w (ticks w)) ++
                 "] Saving into the database...")%string;
        EvExecute "BEGIN";
        EvToSql "news" (length (df_rows df)); EvCommit;
        EvPrint m;
        EvPrint ("[" ++ strftime_log (clock w (1 + ticks w)) ++
                 "] Failed to save the news to the database, saving to CSV...")%string;
        EvRollback;
        EvToCsv (backup_name (clock w (2 + ticks w)));
        EvPrint ("[" ++ strftime_log (clock w (3 + ticks w)) ++
                 "] News saved to CSV")%string;
        EvClose]
   end)%list.
Proof.
  destruct (db_fault w (connects (db w))) as [ | m | m | m | k m | m] eqn:E;
    repeat progress (run; rewrite ?E); rewrite <- ?app_assoc; reflexivity.
Qed.

(** X11: When connecting, creating the table and [BEGIN] all went through, the
    connection is closed again on every way out of [store] (commit, or
    rollback and backup), the close is the last thing done, and the table
    exists. *)
Theorem store_releases_connection (df : DataFrame) (w : World) :
  setup_fault (db_fault w (connects (db w))) = None ->
  open_conns (db (snd (store df w))) = open_conns (db w) /\
  last (trace (snd (store df w))) = Some EvClose /\
  is_Some (news (db (snd (store df w)))).
Proof.
  intros Hf.
  destruct (db_fault w (connects (db w))) as [ | m | m | m | k m | m] eqn:E;
    try discriminate Hf; repeat progress (run; rewrite ?E);
    (split; [reflexivity | split; [apply last_snoc | ]]);
    destruct (news (db w)); eauto.
Qed.

Lemma store_backup_world (df : DataFrame) (w : World) :
  write_fails (db_fault w (connects (db w))) = true ->
  files (snd (store df w)) = <[backup_name (clock w (2 + ticks w)) := df]> (files w) /\
  ticks (snd (store df w)) = 4 + ticks w /\
  backups_of (trace (snd (store df w))) =
    (backups_of (trace w) ++ [backup_name (clock w (2 + ticks w))])%list.
Proof.
  intros Hf.
  destruct (db_fault w (connects (db w))) as [ | m | m | m | k m | m] eqn:E;
    try discriminate Hf; repeat progress (run; rewrite ?E);
    repeat split; effects; reflexivity.
Qed.

(** X14: Two failed store writes on the same calendar date: the second backup
    takes the name of the first and replaces it, so only the second frame
    is left on disk. *)
Theorem same_day_backup_is_overwritten (df1 df2 : DataFrame) (w : World) :
  write_fails (db_fault w (connects (db w))) = true ->
  write_fails (db_fault w (S (connects (db w)))) = true ->
  backup_name (clock w (6 + ticks w)) = backup_name (clock w (2 + ticks w)) ->
  files (snd (store df2 (snd (store df1 w)))) =
    <[backup_name (clock w (2 + ticks w)) := df2]> (files w) /\
  files (snd (store df2 (snd (store df1 w)))) !! backup_name (clock w (2 + ticks w)) =
    Some df2 /\
  backups_of (trace (snd (store df2 (snd (store df1 w))))) =
    (backups_of (trace w) ++
     [backup_name (clock w (2 + ticks w)); backup_name (clock w (2 + ticks w))])%list.
Proof.
  intros H1 H2 Hn.
  destruct (store_effects df1 w) as (Hdf & Hc & _ & _ & _ & Hn1 & _ & _).
  destruct (store_backup_world df1 w H1) as (Hf1 & Ht1 & Hb1).
  assert (H2' : write_fails (db_fault (snd (store df1 w))
                               (connects (db (snd (store df1 w))))) = true)
    by (rewrite Hdf, Hn1; exact H2).
  destruct (store_backup_world df2 _ H2') as (Hf2 & _ & Hb2).
  rewrite Hc, Ht1 in Hf2, Hb2.
  change (2 + (4 + ticks w)) with (6 + ticks w) in Hf2, Hb2.
  rewrite Hn in Hf2, Hb2. rewrite Hf1 in Hf2. rewrite insert_insert_eq in Hf2.
  split; [exact Hf2 | ]. split; [rewrite Hf2; apply lookup_insert_eq | ].
  rewrite Hb2, Hb1, <- app_assoc. reflexivity.
Qed.

(** X15: Two store writes without fault, one after the other, leave the rows of
    both frames in the table, in order, after those it had; nothing is
    merged or dropped, even when the frames are the same. *)
Theorem two_stores_keep_both (df1 df2 : DataFrame) (w : World) :
  db_fault w (connects (db w)) = NoFault ->
  db_fault w (S (connects (db w))) = NoFault ->
  stored_rows (db (snd (store df2 (snd (store df1 w))))) =
    (stored_rows (db w) ++ df_rows df1 ++ df_rows df2)%list.
Proof.
  intros H1 H2.
  destruct (store_effects df1 w) as (Hdf & _ & _ & _ & _ & Hn1 & _ & _).
  destruct (store_commit_appends df1 w H1) as [_ Hr1].
  assert (H2' : db_fault (snd (store df1 w))
                  (connects (db (snd (store df1 w)))) = NoFault)
    by (rewrite Hdf, Hn1; exact H2).
  destruct (store_commit_appends df2 _ H2') as [_ Hr2].
  rewrite Hr2, Hr1, <- app_assoc. reflexivity.
Qed.

(** ** More of the Scheduler *)

Lemma main_run (w : World) :
  main w =
  match fetch w with
  | (Return result, w1) =>
      match process result with
      | Return df => store df w1
      | Raise e => (Raise e, w1)
      end
  | (Raise e, w1) => (Raise e, w1)
  end.
Proof.
  unfold main, mbind, M_bind, lift.
  destruct (fetch w) as [[result | e] w1]; [ | reflexivity].
  destruct (process result); reflexivity.
Qed.

Lemma main_effects (w : World) :
  db_fault (snd (main w)) = db_fault w /\
  clock (snd (main w)) = clock w /\
  network (snd (main w)) = network w /\
  dotenv_file (snd (main w)) = dotenv_file w /\
  environ (snd (main w)) = environ w ∪ dotenv_file w /\
  requests_of (trace (snd (main w))) =
    (requests_of (trace w) ++
     (if py_truthy (credential w)
      then [request_url (py_format (credential w)) 100] else []))%list /\
  sleeps_of (trace (snd (main w))) = sleeps_of (trace w).
Proof.
  rewrite main_run.
  destruct (fetch_effects w) as (_ & _ & Hdf & Hc & Hn & Hd & He & Hr & Hs & _).
  destruct (fetch w) as [[result | e] w1]; cbn [snd] in *;
    [ | repeat split; assumption].
  destruct (process result) as [df | e]; cbn [snd];
    [ | repeat split; assumption].
  destruct (store_effects df w1) as (Hdf' & Hc' & Hn' & He' & Hd' & _ & Hr' & Hs').
  repeat split; congruence.
Qed.

Lemma iteration_run (interval_seconds : nat) (w : World) :
  iteration interval_seconds w =
  match main w with
  | (Return u, w1) => (Return u, emit (EvSleep interval_seconds) w1)
  | (Raise e, w1) =>
      if is_SystemExit e
      then (Return tt,
            emit (EvSleep interval_seconds)
              (emit (EvPrint ("[" ++ strftime_log (clock w1 (ticks w1)) ++ "] Error: " ++
                              dquote ++ exn_str e ++ dquote ++ ". Repeating in " ++
                              pretty interval_seconds ++ " seconds"))
                 (set_ticks S w1)))
      else (Raise e, emit (EvSleep interval_seconds) w1)
  end.
Proof.
  cbv beta iota zeta delta
    [iteration attempt try_finally try_except sleep do mbind M_bind mret M_ret
     curr_time datetime_now print].
  destruct (main w) as [[u | e] w1]; [reflexivity | ].
  destruct (is_SystemExit e); reflexivity.
Qed.

Lemma union_twice (m d : gmap string string) : (m ∪ d) ∪ d = m ∪ d.
Proof.
  apply map_eq. intros i. rewrite !lookup_union.
  destruct (m !! i), (d !! i); reflexivity.
Qed.

Lemma iteration_effects (interval_seconds : nat) (w : World) :
  credential (snd (iteration interval_seconds w)) = credential w /\
  requests_of (trace (snd (iteration interval_seconds w))) =
    (requests_of (trace w) ++
     (if py_truthy (credential w)
      then [request_url (py_format (credential w)) 100] else []))%list /\
  sleeps_of (trace (snd (iteration interval_seconds w))) =
    (sleeps_of (trace w) ++ [interval_seconds])%list.
Proof.
  rewrite iteration_run.
  destruct (main_effects w) as (_ & _ & _ & Hd & He & Hr & Hs).
  assert (Hc : forall w' : World,
            environ w' = environ (snd (main w)) ->
            dotenv_file w' = dotenv_file (snd (main w)) ->
            credential w' = credential w).
  { intros w' H1 H2. unfold credential. rewrite H1, H2, He, Hd.
    rewrite union_twice. reflexivity. }
  destruct (main w) as [[u | e] w1]; cbn [snd] in *.
  - split; [apply Hc; reflexivity | ]. cbn [trace emit]. effects.
    rewrite Hr, Hs. split; reflexivity.
  - destruct (is_SystemExit e); cbn [snd];
      (split; [apply Hc; reflexivity | ]); cbn [trace emit set_ticks]; effects;
      rewrite Hr, Hs; split; reflexivity.
Qed.

(** X16: A run whose fetch raises goes no further: [main] raises the same
    error and the database and the files are as before. *)
Theorem fetch_failure_skips_store (w : World) (e : exn) :
  fst (fetch w) = Raise e ->
  main w = (Raise e, snd (fetch w)) /\
  db (snd (main w)) = db w /\
  files (snd (main w)) = files w /\
  backups_of (trace (snd (main w))) = backups_of (trace w).
Proof.
  intros H. rewrite main_run.
  destruct (fetch_effects w) as (Hd & Hf & _ & _ & _ & _ & _ & _ & _ & Hb).
  destruct (fetch w) as [[result | e'] w1]; cbn [fst snd] in *;
    [discriminate H | ].
  injection H as ->. repeat split; assumption.
Qed.

(** X18: A whole good run: a 200 answer with a list of records, and a call of
    [store] in which no statement raises (so [to_sql] could bind and insert
    every value of the frame).  [main] returns; the table gains one row per
    record, in order, each the row the Normalizer made of the record: the
    missing-value marker where the record has nothing under a column, and
    otherwise the value as the inferred dtype of the column keeps it; the
    connection count is as before; no backup is written; and the four lines
    of a clean run are printed with four successive clock readings. *)
Theorem main_stores_the_records (w : World) (key : string) (r : Response)
    (o : list (string * json)) (records : list (list (string * json))) :
  credential w = Some key ->
  key <> EmptyString ->
  answer w key = Responded r ->
  status_code r = 200 ->
  body r = ValidJson (JObj o) ->
  dict_get "error" o = None ->
  dict_get "data" o = Some (JArr (JObj <$> records)) ->
  db_fault w (connects (db w)) = NoFault ->
  fst (main w) = Return tt /\
  stored_rows (db (snd (main w))) =
    (stored_rows (db w) ++ map (frame_row columns records) records)%list /\
  open_conns (db (snd (main w))) = open_conns (db w) /\
  backups_of (trace (snd (main w))) = backups_of (trace w) /\
  stdout_of (trace (snd (main w))) =
    (stdout_of (trace w) ++
     [("[" ++ strftime_log (clock w (ticks w)) ++ "] Collecting news...")%string;
      ("[" ++ strftime_log (clock w (1 + ticks w)) ++
       "] News collected, processing...")%string;
      ("[" ++ strftime_log (clock w (2 + ticks w)) ++
       "] Saving into the database...")%string;
      ("[" ++ strftime_log (clock w (3 + ticks w)) ++
       "] News saved successfully")%string])%list.
Proof.
  intros Hk Hne Ha Hs Hb He Hd E.
  rewrite main_run, (fetch_success w key r o Hk Hne Ha Hb Hs He).
  unfold process, py_getitem. rewrite Hd.
  unfold from_records. rewrite as_records_objects.
  unfold sent. repeat progress (run; rewrite ?E).
  split; [reflexivity | ]. split.
  { unfold stored_rows. run.
    destruct (news (db w)) as [t | ]; cbn [t_rows app default];
      rewrite ?app_nil_r; reflexivity. }
  split; [reflexivity | ]. split; effects; [reflexivity | ].
  rewrite <- !app_assoc. reflexivity.
Qed.

(** X17: A run whose Normalizer raises goes no further either: [main] raises
    that error after the one request of the fetch, and the database and
    the files are as before. *)
Theorem normalizer_failure_skips_store (w w1 : World) (result : json) (e : exn) :
  fetch w = (Return result, w1) ->
  process result = Raise e ->
  main w = (Raise e, w1) /\
  db (snd (main w)) = db w /\
  files (snd (main w)) = files w /\
  backups_of (trace (snd (main w))) = backups_of (trace w).
Proof.
  intros Hf Hp. rewrite main_run.
  destruct (fetch_effects w) as (Hd & Hfi & _ & _ & _ & _ & _ & _ & _ & Hb).
  rewrite Hf in *. rewrite Hp. cbn [snd] in *. repeat split; assumption.
Qed.

(** X19: A whole degraded run: a 200 answer with a list of records and a store
    on which [to_sql], or the [conn.commit()] after it, raises.  [main]
    still returns; the backup file of the day holds the frame the
    Normalizer made of the records; the turn of the loop ends normally, so
    the loop goes on.  The table has the rows it had when [to_sql] raised;
    when only the later commit raised, the rows of the frame are in the
    table as well. *)
Theorem main_backs_up_the_records (interval_seconds : nat) (w : World) (key : string)
    (r : Response) (o : list (string * json))
    (records : list (list (string * json))) :
  credential w = Some key ->
  key <> EmptyString ->
  answer w key = Responded r ->
  status_code r = 200 ->
  body r = ValidJson (JObj o) ->
  dict_get "error" o = None ->
  dict_get "data" o = Some (JArr (JObj <$> records)) ->
  write_fails (db_fault w (connects (db w))) = true ->
  fst (main w) = Return tt /\
  stored_rows (db (snd (main w))) =
    (stored_rows (db w) ++
     match db_fault w (connects (db w)) with
     | CommitFails _ => map (frame_row columns records) records
     | _ => []
     end)%list /\
  files (snd (main w)) !! backup_name (clock w (4 + ticks w)) =
    Some (mkDataFrame columns (map (frame_row columns records) records)) /\
  fst (iteration interval_seconds w) = Return tt.
Proof.
  intros Hk Hne Ha Hs Hb He Hd Hw.
  assert (Hm : fst (main w) = Return tt /\
               stored_rows (db (snd (main w))) =
                 (stored_rows (db w) ++
                  match db_fault w (connects (db w)) with
                  | CommitFails _ => map (frame_row columns records) records
                  | _ => []
                  end)%list /\
               files (snd (main w)) !! backup_name (clock w (4 + ticks w)) =
                 Some (mkDataFrame columns (map (frame_row columns records) records))).
  { rewrite main_run, (fetch_success w key r o Hk Hne Ha Hb Hs He).
    unfold process, py_getitem. rewrite Hd.
    unfold from_records. rewrite as_records_objects. unfold sent.
    destruct (db_fault w (connects (db w))) as [ | m | m | m | k m | m] eqn:E;
      try discriminate Hw; repeat progress (run; rewrite ?E);
      (split; [reflexivity | ]); (split; [ | apply lookup_insert_eq]);
      unfold stored_rows; run; destruct (news (db w)) as [t | ];
      cbn [t_rows app default]; rewrite ?app_nil_r; reflexivity. }
  destruct Hm as (Hm1 & Hm2 & Hm3). repeat split; try assumption.
  rewrite iteration_run. destruct (main w) as [[u | e] w1]; cbn [fst] in *;
    [destruct u; reflexivity | discriminate Hm1].
Qed.

(** X20: While the loop is still going after [rounds] turns it has slept
    [rounds] times, each time for the interval it was given. *)
Theorem loop_sleeps_every_turn (interval_seconds rounds : nat) (w : World) :
  fst (run_periodically interval_seconds rounds w) = Looping ->
  sleeps_of (trace (snd (run_periodically interval_seconds rounds w))) =
    (sleeps_of (trace w) ++ repeat interval_seconds rounds)%list.
Proof.
  revert w. induction rounds as [ | k IH]; intros w H.
  - cbn. rewrite app_nil_r. reflexivity.
  - cbn [run_periodically] in *.
    destruct (iteration_effects interval_seconds w) as (_ & _ & Hs).
    destruct (iteration interval_seconds w) as [[u | e] w']; cbn [snd] in *;
      [ | discriminate H].
    rewrite (IH w' H), Hs, <- app_assoc. reflexivity.
Qed.

(** X21: The loop never puts more than one request per turn on the wire. *)
Theorem loop_requests_at_most_one_per_turn (interval_seconds rounds : nat) (w : World) :
  length (requests_of (trace (snd (run_periodically interval_seconds rounds w)))) <=
  length (requests_of (trace w)) + rounds.
Proof.
  revert w. induction rounds as [ | k IH]; intros w; [cbn; lia | ].
  cbn [run_periodically].
  destruct (iteration_effects interval_seconds w) as (_ & Hr & _).
  assert (Hl : forall w' : World,
            w' = snd (iteration interval_seconds w) ->
            length (requests_of (trace w')) <= S (length (requests_of (trace w)))).
  { intros w' ->. rewrite Hr, length_app.
    destruct (py_truthy (credential w)); cbn; lia. }
  destruct (iteration interval_seconds w) as [[u | e] w']; cbn [snd] in *.
  - specialize (IH w'). specialize (Hl w' eq_refl). lia.
  - specialize (Hl w' eq_refl). lia.
Qed.

Lemma iteration_without_key (interval_seconds : nat) (w : World) :
  py_truthy (credential w) = false ->
  fst (iteration interval_seconds w) = Return tt /\
  db (snd (iteration interval_seconds w)) = db w /\
  files (snd (iteration interval_seconds w)) = files w.
Proof.
  intros H. rewrite iteration_run, main_run, (fetch_without_key w H).
  repeat split; reflexivity.
Qed.

(** X22: Without a usable API key the loop goes on for ever: however many turns
    it is given it is still looping after them, and it has sent no request
    and changed neither the database nor the files. *)
Theorem loop_without_key_never_ends (interval_seconds rounds : nat) (w : World) :
  py_truthy (credential w) = false ->
  fst (run_periodically interval_seconds rounds w) = Looping /\
  requests_of (trace (snd (run_periodically interval_seconds rounds w))) =
    requests_of (trace w) /\
  db (snd (run_periodically interval_seconds rounds w)) = db w /\
  files (snd (run_periodically interval_seconds rounds w)) = files w.
Proof.
  revert w. induction rounds as [ | k IH]; intros w H; [repeat split | ].
  cbn [run_periodically].
  destruct (iteration_effects interval_seconds w) as (Hc & Hr & _).
  destruct (iteration_without_key interval_seconds w H) as (Hi & Hd & Hf).
  rewrite H, app_nil_r in Hr.
  destruct (iteration interval_seconds w) as [[u | e] w']; cbn [fst snd] in *;
    [ | discriminate Hi].
  assert (H' : py_truthy (credential w') = false) by (rewrite Hc; exact H).
  destruct (IH w' H') as (IH1 & IH2 & IH3 & IH4).
  repeat split; congruence.
Qed.

(** X23: An exception of [main] that is not a [SystemExit] ends the loop: the
    turn prints nothing about it, sleeps once more, and lets it through. *)
Theorem other_errors_end_loop (interval_seconds : nat) (w w1 : World) (e : exn) :
  main w = (Raise e, w1) ->
  is_SystemExit e = false ->
  iteration interval_seconds w = (Raise e, emit (EvSleep interval_seconds) w1) /\
  (forall rounds : nat,
     run_periodically interval_seconds (S rounds) w =
     (Escaped e, emit (EvSleep interval_seconds) w1)).
Proof.
  intros Hm He.
  assert (Hi : iteration interval_seconds w =
               (Raise e, emit (EvSleep interval_seconds) w1))
    by (rewrite iteration_run, Hm, He; reflexivity).
  split; [exact Hi | ]. intros rounds. cbn [run_periodically]. rewrite Hi. reflexivity.
Qed.

End Pipeline.

(** ** Runs that go wrong *)

(** C4: a 502 answer whose body is an error page, not JSON.  The body is
    decoded before the status is looked at, so the Fetcher never reaches its
    status check: it raises the decoding error, wrapped as a connection
    error when the library counts it as a request exception, and in neither
    case the error that carries the status code and the reason. *)
Theorem fetch_error_page_hides_status (py_str_json : json -> string)
    (json_error_is_request_exception : bool) :
  let fetch := fetch py_str_json json_error_is_request_exception in
  let w := sample_world (Some "k") (Responded bad_gateway) NoFault in
  fst (fetch w) =
    Raise (if json_error_is_request_exception
           then SystemExit (CodeRequestException "Expecting value: line 1 column 1 (char 0)")
           else JSONDecodeError "Expecting value: line 1 column 1 (char 0)") /\
  fst (fetch w) <> Raise (SystemExit (CodeStr "Error 502: Bad Gateway")) /\
  stdout_of (trace (snd (fetch w))) =
    (["[2025-02-09 22:55:00] Collecting news..."] ++
     (if json_error_is_request_exception
      then ["[2025-02-09 22:55:01] API request failed: connection error"]
      else []))%list.
Proof.
  destruct json_error_is_request_exception; vm_compute;
    (split; [reflexivity | split; [discriminate | reflexivity]]).
Qed.


(** C8: a database on which the [CREATE TABLE] statement, or the [BEGIN]
    after it, raises.  Both statements stand before the [try] whose
    [finally] closes the connection, so [store] raises with the connection
    still open and no close ever issued; in the first case the table does
    not exist after the call either. *)
Theorem store_setup_failure_leaks_connection (py_str_json : json -> string) :
  let store := store py_str_json in
  let w1 := sample_world (Some "k") (ConnectionFailed "unused")
              (CreateFails "database is locked") in
  let w2 := sample_world (Some "k") (ConnectionFailed "unused")
              (BeginFails "database is locked") in
  (fst (store sample_frame w1) = Raise (DatabaseError "database is locked") /\
   open_conns (db w1) = 0 /\
   open_conns (db (snd (store sample_frame w1))) = 1 /\
   ~ In EvClose (trace (snd (store sample_frame w1))) /\
   news (db (snd (store sample_frame w1))) = None) /\
  (fst (store sample_frame w2) = Raise (DatabaseError "database is locked") /\
   open_conns (db (snd (store sample_frame w2))) = 1 /\
   ~ In EvClose (trace (snd (store sample_frame w2)))).
Proof.
  vm_compute. repeat split; try reflexivity; intros H;
    repeat (destruct H as [H | H]; [discriminate H | ]); exact H.
Qed.

(** ** The theorems at sample inputs *)

(** The run recorded in the notebook: four lines, one request, the rows in
    the table, the connection closed. *)
Example main_clean_run :
  let w := sample_world (Some "k")
             (Responded (mkResponse 200 "OK" (ValidJson (JObj two_articles)))) NoFault in
  let w' := snd (main sample_str true sample_irregular sample_infer w) in
  fst (main sample_str true sample_irregular sample_infer w) = Return tt /\
  stdout_of (trace w') =
    ["[2025-02-09 22:55:00] Collecting news...";
     "[2025-02-09 22:55:01] News collected, processing...";
     "[2025-02-09 22:55:02] Saving into the database...";
     "[2025-02-09 22:55:03] News saved successfully"] /\
  row_count (db w') = 2 /\
  open_conns (db w') = 0 /\
  backups_of (trace w') = [].
Proof. vm_compute. repeat split; reflexivity. Qed.

Lemma fetch_absent_key_no_request_witness :
  let w := sample_world None (ConnectionFailed "unreachable") NoFault in
  credential w = None /\
  exists w',
    fetch sample_str true w = (Raise (SystemExit (CodeStr "Missing API Key")), w') /\
    trace w' = (trace w ++
      [EvPrint ("[" ++ strftime_log (clock w (ticks w)) ++
                "] Error: API Key not found! Check your .env file.")])%list /\
    requests_of (trace w') = requests_of (trace w).
Proof.
  split; [reflexivity | ].
  apply (fetch_absent_key_no_request sample_str true). reflexivity.
Defined.

Lemma fetch_empty_key_no_request_witness :
  let w := sample_world (Some EmptyString) (ConnectionFailed "unreachable") NoFault in
  credential w = Some EmptyString /\
  exists w',
    fetch sample_str true w = (Raise (SystemExit (CodeStr "Missing API Key")), w') /\
    trace w' = (trace w ++
      [EvPrint ("[" ++ strftime_log (clock w (ticks w)) ++
                "] Error: API Key not found! Check your .env file.")])%list /\
    requests_of (trace w') = requests_of (trace w).
Proof.
  split; [reflexivity | ].
  apply (fetch_empty_key_no_request sample_str true). reflexivity.
Defined.

Lemma fetch_issues_one_request_witness :
  let w := sample_world (Some "k") (Responded rate_limited) NoFault in
  (credential w = Some "k" /\ "k" <> EmptyString) /\
  requests_of (trace (snd (fetch sample_str true w))) =
    (requests_of (trace w) ++ [request_url "k" 100])%list /\
  request_url "k" 100 =
    "http://api.mediastack.com/v1/news?access_key=" ++ "k" ++
    "&languages=en&keywords=ai&sort=published_desc&limit=100".
Proof.
  split; [split; [reflexivity | discriminate] | ].
  apply (fetch_issues_one_request sample_str true); [reflexivity | discriminate].
Defined.


Lemma store_append_failure_rolls_back_witness :
  let w := sample_world (Some "k") (ConnectionFailed "unreachable")
             (AppendFails 1 "database or disk is full") in
  db_fault w (connects (db w)) = AppendFails 1 "database or disk is full" /\
  exists w',
    store sample_str sample_frame w = (Return tt, w') /\
    stored_rows (db w') = stored_rows (db w) /\
    row_count (db w') = row_count (db w) /\
    txn (db w') = None /\
    In EvRollback (trace w') /\
    files w' !! backup_name (clock w (2 + ticks w)) = Some sample_frame /\
    last (stdout_of (trace w')) =
      Some ("[" ++ strftime_log (clock w (3 + ticks w)) ++ "] News saved to CSV").
Proof.
  split; [reflexivity | ].
  apply (store_append_failure_rolls_back sample_str _ _ 1 "database or disk is full").
  reflexivity.
Defined.

Lemma scheduler_survives_fetch_errors_witness :
  let w := sample_world (Some "k") (Responded rate_limited) NoFault in
  let w1 := snd (fetch sample_str true w) in
  let code := CodeStr "Error 429: Too Many Requests" in
  let line := "[" ++ strftime_log (clock w1 (ticks w1)) ++ "] Error: " ++ dquote ++
              exn_str sample_str (SystemExit code) ++ dquote ++
              ". Repeating in " ++ pretty 60 ++ " seconds" in
  let w2 := emit (EvSleep 60) (emit (EvPrint line) (set_ticks S w1)) in
  fetch sample_str true w = (Raise (SystemExit code), w1) /\
  iteration sample_str true sample_irregular sample_infer 60 w = (Return tt, w2) /\
  (forall rounds : nat,
     run_periodically sample_str true sample_irregular sample_infer 60 (S rounds) w =
     run_periodically sample_str true sample_irregular sample_infer 60 rounds w2) /\
  (forall w0 : World,
     iteration sample_str true sample_irregular sample_infer 60 w0 =
     (fst (attempt sample_str true sample_irregular sample_infer 60 w0),
      emit (EvSleep 60) (snd (attempt sample_str true sample_irregular sample_infer 60 w0)))).
Proof.
  cbv zeta.
  assert (H : fetch sample_str true (sample_world (Some "k") (Responded rate_limited) NoFault) =
              (Raise (SystemExit (CodeStr "Error 429: Too Many Requests")),
               snd (fetch sample_str true
                      (sample_world (Some "k") (Responded rate_limited) NoFault))))
    by (vm_compute; reflexivity).
  split; [exact H | ].
  exact (scheduler_survives_fetch_errors sample_str true sample_irregular sample_infer 60 _ _ _ H).
Defined.

Lemma missing_data_ends_loop_witness :
  let r := mkResponse 200 "OK" (ValidJson (JObj no_data)) in
  let w := sample_world (Some "k") (Responded r) NoFault in
  (credential w = Some "k" /\ "k" <> EmptyString /\ answer w "k" = Responded r /\
   status_code r = 200 /\ body r = ValidJson (JObj no_data) /\
   dict_get "error" no_data = None /\ dict_get "data" no_data = None) /\
  exists w1,
    fetch sample_str true w = (Return (JObj no_data), w1) /\
    process sample_irregular sample_infer (JObj no_data) = Raise (KeyError "data") /\
    is_SystemExit (KeyError "data") = false /\
    iteration sample_str true sample_irregular sample_infer 60 w =
      (Raise (KeyError "data"), emit (EvSleep 60) w1) /\
    (forall rounds : nat,
       run_periodically sample_str true sample_irregular sample_infer 60 (S rounds) w =
       (Escaped (KeyError "data"), emit (EvSleep 60) w1)).
Proof.
  split.
  - repeat split; try reflexivity. discriminate.
  - apply (missing_data_ends_loop sample_str true sample_irregular sample_infer 60 _ "k"
             (mkResponse 200 "OK" (ValidJson (JObj no_data))) no_data);
      try reflexivity. discriminate.
Defined.

(** ** The further theorems at sample inputs *)

Lemma fetch_transport_error_witness :
  let w := sample_world (Some "k") (ConnectionFailed "Connection refused") NoFault in
  (credential w = Some "k" /\ "k" <> EmptyString /\
   answer w "k" = ConnectionFailed "Connection refused") /\
  fst (fetch sample_str true w) =
    Raise (SystemExit (CodeRequestException "Connection refused")).
Proof.
  split; [repeat split; try reflexivity; discriminate | ].
  apply (fetch_transport_error sample_str true _ "k"); try reflexivity. discriminate.
Defined.

Lemma fetch_protocol_error_witness :
  let w := sample_world (Some "k") (Responded rate_limited) NoFault in
  (credential w = Some "k" /\ "k" <> EmptyString /\
   answer w "k" = Responded rate_limited /\
   (exists j, body rate_limited = ValidJson j) /\ status_code rate_limited <> 200) /\
  fst (fetch sample_str true w) =
    Raise (SystemExit (CodeStr ("Error " ++ pretty (status_code rate_limited) ++ ": " ++
                                reason rate_limited))).
Proof.
  split; [repeat split; try reflexivity; try discriminate; eexists; reflexivity | ].
  eapply (fetch_protocol_error sample_str true _ "k" rate_limited);
    try reflexivity; discriminate.
Defined.

Lemma fetch_application_error_witness :
  let w := sample_world (Some "k") (Responded api_error) NoFault in
  let err := JObj [("code", JStr "invalid_access_key");
                   ("message", JStr "You have not supplied a valid API Access Key.")] in
  (credential w = Some "k" /\ "k" <> EmptyString /\
   answer w "k" = Responded api_error /\
   body api_error = ValidJson (JObj [("error", err)]) /\
   status_code api_error = 200 /\
   dict_get "error" [("error", err)] = Some err /\
   py_getitem err "message" =
     Return (JStr "You have not supplied a valid API Access Key.")) /\
  fst (fetch sample_str true w) = Raise (SystemExit (CodeJson err)).
Proof.
  split; [repeat split; try reflexivity; discriminate | ].
  eapply (fetch_application_error sample_str true _ "k" api_error);
    try reflexivity. discriminate.
Defined.

Lemma fetch_error_without_message_escapes_witness :
  let r := mkResponse 200 "OK" (ValidJson (JObj terse_error)) in
  let w := sample_world (Some "k") (Responded r) NoFault in
  let err := JObj [("code", JStr "invalid_access_key")] in
  (credential w = Some "k" /\ "k" <> EmptyString /\ answer w "k" = Responded r /\
   body r = ValidJson (JObj terse_error) /\ status_code r = 200 /\
   dict_get "error" terse_error = Some err /\
   py_getitem err "message" = Raise (KeyError "message")) /\
  fst (fetch sample_str true w) = Raise (KeyError "message") /\
  is_SystemExit (KeyError "message") = false /\
  stdout_of (trace (snd (fetch sample_str true w))) =
    (stdout_of (trace w) ++
     [("[" ++ strftime_log (clock w (ticks w)) ++ "] Collecting news...")%string])%list.
Proof.
  split; [repeat split; try reflexivity; discriminate | ].
  eapply (fetch_error_without_message_escapes sample_str true _ "k"
            (mkResponse 200 "OK" (ValidJson (JObj terse_error))) terse_error);
    try reflexivity. discriminate.
Defined.

Lemma fetch_returns_body_witness :
  let r := mkResponse 200 "OK" (ValidJson (JObj two_articles)) in
  let w := sample_world (Some "k") (Responded r) NoFault in
  (credential w = Some "k" /\ "k" <> EmptyString /\ answer w "k" = Responded r /\
   body r = ValidJson (JObj two_articles) /\ status_code r = 200 /\
   py_contains "error" (JObj two_articles) = Return false) /\
  fst (fetch sample_str true w) = Return (JObj two_articles) /\
  stdout_of (trace (snd (fetch sample_str true w))) =
    (stdout_of (trace w) ++
     [("[" ++ strftime_log (clock w (ticks w)) ++ "] Collecting news...")%string;
      ("[" ++ strftime_log (clock w (S (ticks w))) ++
       "] News collected, processing...")%string])%list.
Proof.
  split; [repeat split; try reflexivity; discriminate | ].
  eapply (fetch_returns_body sample_str true _ "k"
            (mkResponse 200 "OK" (ValidJson (JObj two_articles))));
    try reflexivity. discriminate.
Defined.

Lemma process_reads_schema_keys_only_witness :
  let records := [sample_record; [("title", JStr "How to read burnt scrolls")]] in
  let records' := [removelast sample_record;
                   [("title", JStr "How to read burnt scrolls")]] in
  (dict_get "data" two_articles = Some (JArr (JObj <$> records)) /\
   dict_get "data" two_articles_trimmed = Some (JArr (JObj <$> records')) /\
   Forall2 (fun r r' => forall c, In c columns -> dict_get c r = dict_get c r')
           records records') /\
  process sample_irregular sample_infer (JObj two_articles) =
  process sample_irregular sample_infer (JObj two_articles_trimmed).
Proof.
  assert (H : Forall2 (fun r r' => forall c, In c columns -> dict_get c r = dict_get c r')
                [sample_record; [("title", JStr "How to read burnt scrolls")]]
                [removelast sample_record;
                 [("title", JStr "How to read burnt scrolls")]]).
  { repeat constructor; intros c Hc; cbn in Hc;
      repeat (destruct Hc as [<- | Hc]; [reflexivity | ]); contradiction. }
  split; [repeat split; try reflexivity; exact H | ].
  exact (process_reads_schema_keys_only sample_irregular sample_infer two_articles two_articles_trimmed
           [sample_record; [("title", JStr "How to read burnt scrolls")]]
           [removelast sample_record; [("title", JStr "How to read burnt scrolls")]]
           eq_refl eq_refl H).
Defined.

Lemma store_setup_failure_propagates_witness :
  let w := sample_world (Some "k") (ConnectionFailed "unreachable")
             (ConnectFails "unable to open database file") in
  setup_fault (db_fault w (connects (db w))) = Some "unable to open database file" /\
  fst (store sample_str sample_frame w) =
    Raise (DatabaseError "unable to open database file") /\
  stored_rows (db (snd (store sample_str sample_frame w))) = stored_rows (db w) /\
  files (snd (store sample_str sample_frame w)) = files w /\
  backups_of (trace (snd (store sample_str sample_frame w))) = backups_of (trace w).
Proof.
  split; [reflexivity | ].
  apply (store_setup_failure_propagates sample_str). reflexivity.
Defined.

Lemma store_releases_connection_witness :
  let w := sample_world (Some "k") (ConnectionFailed "unreachable")
             (AppendFails 1 "database or disk is full") in
  setup_fault (db_fault w (connects (db w))) = None /\
  open_conns (db (snd (store sample_str sample_frame w))) = open_conns (db w) /\
  last (trace (snd (store sample_str sample_frame w))) = Some EvClose /\
  is_Some (news (db (snd (store sample_str sample_frame w)))).
Proof.
  split; [reflexivity | ].
  apply (store_releases_connection sample_str). reflexivity.
Defined.

Lemma store_leaves_no_transaction_witness :
  let w := sample_world (Some "k") (ConnectionFailed "unreachable")
             (CommitFails "disk I/O error") in
  txn (db w) = None /\
  txn (db (snd (store sample_str sample_frame w))) = None.
Proof.
  split; [reflexivity | ].
  apply (store_leaves_no_transaction sample_str). reflexivity.
Defined.

Lemma same_day_backup_is_overwritten_witness :
  let w := sample_world (Some "k") (ConnectionFailed "unreachable")
             (AppendFails 0 "database is locked") in
  let df2 := mkDataFrame (df_columns sample_frame) [] in
  let w2 := snd (store sample_str df2 (snd (store sample_str sample_frame w))) in
  (write_fails (db_fault w (connects (db w))) = true /\
   write_fails (db_fault w (S (connects (db w)))) = true /\
   backup_name (clock w (6 + ticks w)) = backup_name (clock w (2 + ticks w))) /\
  files w2 = <[backup_name (clock w (2 + ticks w)) := df2]> (files w) /\
  files w2 !! backup_name (clock w (2 + ticks w)) = Some df2 /\
  backups_of (trace w2) =
    (backups_of (trace w) ++
     [backup_name (clock w (2 + ticks w)); backup_name (clock w (2 + ticks w))])%list.
Proof.
  split; [repeat split; reflexivity | ].
  apply (same_day_backup_is_overwritten sample_str); reflexivity.
Defined.

Lemma two_stores_keep_both_witness :
  let w := sample_world (Some "k") (ConnectionFailed "unreachable") NoFault in
  (db_fault w (connects (db w)) = NoFault /\
   db_fault w (S (connects (db w))) = NoFault) /\
  stored_rows (db (snd (store sample_str sample_frame
                          (snd (store sample_str sample_frame w))))) =
    (stored_rows (db w) ++ df_rows sample_frame ++ df_rows sample_frame)%list.
Proof.
  split; [split; reflexivity | ].
  apply (two_stores_keep_both sample_str); reflexivity.
Defined.

Lemma fetch_failure_skips_store_witness :
  let w := sample_world (Some "k") (Responded rate_limited) NoFault in
  let e := SystemExit (CodeStr "Error 429: Too Many Requests") in
  fst (fetch sample_str true w) = Raise e /\
  main sample_str true sample_irregular sample_infer w = (Raise e, snd (fetch sample_str true w)) /\
  db (snd (main sample_str true sample_irregular sample_infer w)) = db w /\
  files (snd (main sample_str true sample_irregular sample_infer w)) = files w /\
  backups_of (trace (snd (main sample_str true sample_irregular sample_infer w))) =
    backups_of (trace w).
Proof.
  assert (H : fst (fetch sample_str true
                     (sample_world (Some "k") (Responded rate_limited) NoFault)) =
              Raise (SystemExit (CodeStr "Error 429: Too Many Requests")))
    by (vm_compute; reflexivity).
  split; [exact H | ].
  exact (fetch_failure_skips_store sample_str true sample_irregular sample_infer _ _ H).
Defined.

Lemma normalizer_failure_skips_store_witness :
  let r := mkResponse 200 "OK" (ValidJson (JObj no_data)) in
  let w := sample_world (Some "k") (Responded r) NoFault in
  let w1 := snd (fetch sample_str true w) in
  (fetch sample_str true w = (Return (JObj no_data), w1) /\
   process sample_irregular sample_infer (JObj no_data) = Raise (KeyError "data")) /\
  main sample_str true sample_irregular sample_infer w = (Raise (KeyError "data"), w1) /\
  db (snd (main sample_str true sample_irregular sample_infer w)) = db w /\
  files (snd (main sample_str true sample_irregular sample_infer w)) = files w /\
  backups_of (trace (snd (main sample_str true sample_irregular sample_infer w))) =
    backups_of (trace w).
Proof.
  cbv zeta.
  assert (H : fetch sample_str true
                (sample_world (Some "k")
                   (Responded (mkResponse 200 "OK" (ValidJson (JObj no_data)))) NoFault) =
              (Return (JObj no_data),
               snd (fetch sample_str true
                      (sample_world (Some "k")
                         (Responded (mkResponse 200 "OK" (ValidJson (JObj no_data))))
                         NoFault))))
    by (vm_compute; reflexivity).
  split; [split; [exact H | reflexivity] | ].
  exact (normalizer_failure_skips_store sample_str true sample_irregular sample_infer _ _ _ _ H eq_refl).
Defined.

Lemma main_stores_the_records_witness :
  let r := mkResponse 200 "OK" (ValidJson (JObj two_articles)) in
  let w := sample_world (Some "k") (Responded r) NoFault in
  let records := [sample_record; [("title", JStr "How to read burnt scrolls")]] in
  let w' := snd (main sample_str true sample_irregular sample_infer w) in
  (credential w = Some "k" /\ "k" <> EmptyString /\ answer w "k" = Responded r /\
   status_code r = 200 /\ body r = ValidJson (JObj two_articles) /\
   dict_get "error" two_articles = None /\
   dict_get "data" two_articles = Some (JArr (JObj <$> records)) /\
   db_fault w (connects (db w)) = NoFault) /\
  fst (main sample_str true sample_irregular sample_infer w) = Return tt /\
  stored_rows (db w') = (stored_rows (db w) ++ map (frame_row sample_infer columns records) records)%list /\
  open_conns (db w') = open_conns (db w) /\
  backups_of (trace w') = backups_of (trace w) /\
  stdout_of (trace w') =
    (stdout_of (trace w) ++
     [("[" ++ strftime_log (clock w (ticks w)) ++ "] Collecting news...")%string;
      ("[" ++ strftime_log (clock w (1 + ticks w)) ++
       "] News collected, processing...")%string;
      ("[" ++ strftime_log (clock w (2 + ticks w)) ++
       "] Saving into the database...")%string;
      ("[" ++ strftime_log (clock w (3 + ticks w)) ++
       "] News saved successfully")%string])%list.
Proof.
  split; [repeat split; try reflexivity; discriminate | ].
  eapply (main_stores_the_records sample_str true sample_irregular sample_infer _ "k"
            (mkResponse 200 "OK" (ValidJson (JObj two_articles))) two_articles);
    try reflexivity. discriminate.
Defined.

Lemma main_backs_up_the_records_witness :
  let r := mkResponse 200 "OK" (ValidJson (JObj two_articles)) in
  let w := sample_world (Some "k") (Responded r) (CommitFails "disk I/O error") in
  let records := [sample_record; [("title", JStr "How to read burnt scrolls")]] in
  (credential w = Some "k" /\ "k" <> EmptyString /\ answer w "k" = Responded r /\
   status_code r = 200 /\ body r = ValidJson (JObj two_articles) /\
   dict_get "error" two_articles = None /\
   dict_get "data" two_articles = Some (JArr (JObj <$> records)) /\
   write_fails (db_fault w (connects (db w))) = true) /\
  fst (main sample_str true sample_irregular sample_infer w) = Return tt /\
  stored_rows (db (snd (main sample_str true sample_irregular sample_infer w))) =
    (stored_rows (db w) ++
     match db_fault w (connects (db w)) with
     | CommitFails _ => map (frame_row sample_infer columns records) records
     | _ => []
     end)%list /\
  files (snd (main sample_str true sample_irregular sample_infer w)) !!
    backup_name (clock w (4 + ticks w)) =
    Some (mkDataFrame columns (map (frame_row sample_infer columns records) records)) /\
  fst (iteration sample_str true sample_irregular sample_infer 60 w) = Return tt.
Proof.
  split; [repeat split; try reflexivity; discriminate | ].
  eapply (main_backs_up_the_records sample_str true sample_irregular sample_infer 60 _ "k"
            (mkResponse 200 "OK" (ValidJson (JObj two_articles))) two_articles);
    try reflexivity. discriminate.
Defined.

Lemma loop_sleeps_every_turn_witness :
  let w := sample_world (Some "k") (ConnectionFailed "Connection refused") NoFault in
  fst (run_periodically sample_str true sample_irregular sample_infer 60 3 w) = Looping /\
  sleeps_of (trace (snd (run_periodically sample_str true sample_irregular sample_infer 60 3 w))) =
    (sleeps_of (trace w) ++ repeat 60 3)%list.
Proof.
  assert (H : fst (run_periodically sample_str true sample_irregular sample_infer 60 3
                     (sample_world (Some "k") (ConnectionFailed "Connection refused")
                        NoFault)) = Looping)
    by (vm_compute; reflexivity).
  split; [exact H | ].
  exact (loop_sleeps_every_turn sample_str true sample_irregular sample_infer 60 3 _ H).
Defined.

Lemma loop_without_key_never_ends_witness :
  let w := sample_world None (ConnectionFailed "unreachable") NoFault in
  py_truthy (credential w) = false /\
  fst (run_periodically sample_str true sample_irregular sample_infer 60 3 w) = Looping /\
  requests_of (trace (snd (run_periodically sample_str true sample_irregular sample_infer 60 3 w))) =
    requests_of (trace w) /\
  db (snd (run_periodically sample_str true sample_irregular sample_infer 60 3 w)) = db w /\
  files (snd (run_periodically sample_str true sample_irregular sample_infer 60 3 w)) = files w.
Proof.
  split; [reflexivity | ].
  apply (loop_without_key_never_ends sample_str true sample_irregular sample_infer). reflexivity.
Defined.

Lemma other_errors_end_loop_witness :
  let r := mkResponse 200 "OK" (ValidJson (JObj two_articles)) in
  let w := sample_world (Some "k") (Responded r)
             (ConnectFails "unable to open database file") in
  let w1 := snd (main sample_str true sample_irregular sample_infer w) in
  let e := DatabaseError "unable to open database file" in
  (main sample_str true sample_irregular sample_infer w = (Raise e, w1) /\
   is_SystemExit e = false) /\
  iteration sample_str true sample_irregular sample_infer 60 w = (Raise e, emit (EvSleep 60) w1) /\
  (forall rounds : nat,
     run_periodically sample_str true sample_irregular sample_infer 60 (S rounds) w =
     (Escaped e, emit (EvSleep 60) w1)).
Proof.
  cbv zeta.
  assert (H : main sample_str true sample_irregular sample_infer
                (sample_world (Some "k")
                   (Responded (mkResponse 200 "OK" (ValidJson (JObj two_articles))))
                   (ConnectFails "unable to open database file")) =
              (Raise (DatabaseError "unable to open database file"),
               snd (main sample_str true sample_irregular sample_infer
                      (sample_world (Some "k")
                         (Responded (mkResponse 200 "OK" (ValidJson (JObj two_articles))))
                         (ConnectFails "unable to open database file")))))
    by (vm_compute; reflexivity).
  split; [split; [exact H | reflexivity] | ].
  exact (other_errors_end_loop sample_str true sample_irregular sample_infer 60 _ _ _ H eq_refl).
Defined.
